(** * An in-memory task tracker: repositories and request handlers

    Shallow embedding of [oop.py]: three entity classes (Task, Project,
    User), one dictionary-backed repository per entity, and the request
    handlers that tie them together (project existence checks on task
    create/update, cascading project delete).

    Modelling conventions.
    - A [UUID] is its 128-bit integer value, kept as an [N]; no operation of
      the program looks inside an identifier, it only compares them.
    - A Python [dict] is a [gmap]; [values()] is the list of values of
      [map_to_list].  The program never relies on the iteration order.
    - A repository object is identified with the dictionary it wraps
      ([_tasks], [_projects], [_users]); the three module-level repository
      singletons are the three fields of [State].
    - Exceptions are explicit: every operation is a function from the state
      before to a [result] and the state after, so that what a raising
      operation leaves behind can be observed.
    - Every handler receives a record freshly built from the request body and
      its return value is serialised, so the only reference to a stored
      [Task] object is the dictionary entry itself.  The one in-place
      mutation of the program ([task.status = status]) is therefore written
      as a write to the entry the object was fetched from. *)

From stdpp Require Import gmap strings list fin_maps.

Abbreviation UUID := N.

(** ** Exceptions and the state-and-exception monad *)

Inductive exn :=
  | HTTPException (status_code : N) (detail : string)
  | ValueError (msg : string).

Definition HTTP_400_BAD_REQUEST : N := 400.
Definition HTTP_404_NOT_FOUND : N := 404.

Inductive result (A : Type) :=
  | Return (a : A)
  | Raise (e : exn).
Arguments Return {A} a.
Arguments Raise {A} e.

Definition M (S A : Type) : Type := S → result A * S.

Definition ret {S A} (a : A) : M S A := λ s, (Return a, s).
Definition raise {S A} (e : exn) : M S A := λ s, (Raise e, s).
Definition bind {S A B} (m : M S A) (k : A → M S B) : M S B :=
  λ s, match m s with
       | (Return a, s') => k a s'
       | (Raise e, s') => (Raise e, s')
       end.

Global Instance M_ret {S} : MRet (M S) := λ A, ret.
Global Instance M_bind {S} : MBind (M S) := λ A B k m, bind m k.

(** [for x in l: body(x)] *)
Fixpoint for_each {S A} (l : list A) (body : A → M S unit) : M S unit :=
  match l with
  | [] => mret tt
  | x :: l' => body x ;; for_each l' body
  end.

(** ** Entities *)

Inductive TaskStatus := TODO | IN_PROGRESS | DONE.

Global Instance TaskStatus_eq_dec : EqDecision TaskStatus.
Proof. solve_decision. Defined.

Module Task.
Record t := mk {
  id : UUID;
  title : string;
  description : option string;
  status : TaskStatus;
  project_id : option UUID
}.

(** [task.status = s] *)
Definition set_status (s : TaskStatus) (task : t) : t :=
  {| id := id task; title := title task; description := description task;
     status := s; project_id := project_id task |}.

(** The keyword arguments given to the constructor; a field that is not
    given is [None]. *)
Record fields := mk_fields {
  f_id : option UUID;
  f_title : option string;
  f_description : option string;
  f_status : option TaskStatus;
  f_project_id : option UUID
}.

(** Construction of a [Task]: [title] has no default and must be given
    (a validation error otherwise, here [None]); the other fields fall
    back to their declared defaults, [uuid4] standing for the identifier
    drawn by the default factory. *)
Definition new (uuid4 : UUID) (f : fields) : option t :=
  match f_title f with
  | None => None
  | Some s =>
      Some {| id := default uuid4 (f_id f);
              title := s;
              description := f_description f;
              status := default TODO (f_status f);
              project_id := f_project_id f |}
  end.
End Task.

Module Project.
Record t := mk {
  id : UUID;
  name : string;
  description : option string
}.
End Project.

Module User.
Record t := mk {
  id : UUID;
  username : string;
  email : string
}.
End User.

Global Instance Task_eq_dec : EqDecision Task.t.
Proof. solve_decision. Defined.
Global Instance Project_eq_dec : EqDecision Project.t.
Proof. solve_decision. Defined.
Global Instance User_eq_dec : EqDecision User.t.
Proof. solve_decision. Defined.

(** ** Repositories

  The three repository classes have the same five methods, differing only
  in the entity type and the message of the [ValueError]; they are written
  once, over the dictionary of the repository. *)

Module Repository.
Section Repository.
Context {A : Type} (id : A → UUID) (not_found : string).

Definition get_all : M (gmap UUID A) (list A) :=
  λ d, (Return (map_to_list d).*2, d).

Definition get_by_id (key : UUID) : M (gmap UUID A) (option A) :=
  λ d, (Return (d !! key), d).

Definition create (x : A) : M (gmap UUID A) A :=
  λ d, (Return x, <[id x := x]> d).

Definition update (x : A) : M (gmap UUID A) A :=
  λ d, match d !! id x with
       | None => (Raise (ValueError not_found), d)
       | Some _ => (Return x, <[id x := x]> d)
       end.

Definition delete (key : UUID) : M (gmap UUID A) unit :=
  λ d, match d !! key with
       | None => (Raise (ValueError not_found), d)
       | Some _ => (Return tt, base.delete key d)
       end.
End Repository.
End Repository.

Module TaskRepository.
Definition get_all := Repository.get_all (A := Task.t).
Definition get_by_id := Repository.get_by_id (A := Task.t).
Definition create := Repository.create Task.id.
Definition update := Repository.update Task.id "Task not found".
Definition delete := Repository.delete (A := Task.t) "Task not found".

Definition get_by_project (project_id : UUID)
  : M (gmap UUID Task.t) (list Task.t) :=
  λ d, (Return (filter (λ task, Task.project_id task = Some project_id)
                       (map_to_list d).*2), d).
End TaskRepository.

Module ProjectRepository.
Definition get_all := Repository.get_all (A := Project.t).
Definition get_by_id := Repository.get_by_id (A := Project.t).
Definition create := Repository.create Project.id.
Definition update := Repository.update Project.id "Project not found".
Definition delete := Repository.delete (A := Project.t) "Project not found".
End ProjectRepository.

Module UserRepository.
Definition get_all := Repository.get_all (A := User.t).
Definition get_by_id := Repository.get_by_id (A := User.t).
Definition create := Repository.create User.id.
Definition update := Repository.update User.id "User not found".
Definition delete := Repository.delete (A := User.t) "User not found".
End UserRepository.

(** ** The application state: the three module-level repositories *)

Record State := mkState {
  task_repo : gmap UUID Task.t;
  project_repo : gmap UUID Project.t;
  user_repo : gmap UUID User.t
}.

(** All three repositories are created empty. *)
Definition initial_state : State :=
  {| task_repo := ∅; project_repo := ∅; user_repo := ∅ |}.

Definition set_task_repo (d : gmap UUID Task.t) (st : State) : State :=
  {| task_repo := d; project_repo := project_repo st; user_repo := user_repo st |}.
Definition set_project_repo (d : gmap UUID Project.t) (st : State) : State :=
  {| task_repo := task_repo st; project_repo := d; user_repo := user_repo st |}.
Definition set_user_repo (d : gmap UUID User.t) (st : State) : State :=
  {| task_repo := task_repo st; project_repo := project_repo st; user_repo := d |}.

(** A method call on one of the three singletons: [task_repo.m(...)] runs
    the method [m] on the dictionary of [task_repo] and leaves the other two
    repositories alone. *)
Definition on_task_repo {A} (m : M (gmap UUID Task.t) A) : M State A :=
  λ st, let '(r, d) := m (task_repo st) in (r, set_task_repo d st).
Definition on_project_repo {A} (m : M (gmap UUID Project.t) A) : M State A :=
  λ st, let '(r, d) := m (project_repo st) in (r, set_project_repo d st).
Definition on_user_repo {A} (m : M (gmap UUID User.t) A) : M State A :=
  λ st, let '(r, d) := m (user_repo st) in (r, set_user_repo d st).

(** ** Validation helpers *)

(** [if not task: raise ...; return task].  A model instance is always
    truthy, so [not task] holds exactly when the lookup returned [None]. *)
Definition validate_task_exists (task_id : UUID) : M State Task.t :=
  task ← on_task_repo (TaskRepository.get_by_id task_id);
  match task with
  | None => raise (HTTPException HTTP_404_NOT_FOUND "Task not found")
  | Some task => mret task
  end.

Definition validate_project_exists (project_id : UUID) : M State Project.t :=
  project ← on_project_repo (ProjectRepository.get_by_id project_id);
  match project with
  | None => raise (HTTPException HTTP_404_NOT_FOUND "Project not found")
  | Some project => mret project
  end.

Definition validate_user_exists (user_id : UUID) : M State User.t :=
  user ← on_user_repo (UserRepository.get_by_id user_id);
  match user with
  | None => raise (HTTPException HTTP_404_NOT_FOUND "User not found")
  | Some user => mret user
  end.

(** The condition [task.project_id and not project_repo.get_by_id(task.project_id)]
    of [create_task] and [update_task].  A [UUID] object is always truthy, so
    the left operand is falsy exactly for [None], and then the lookup is not
    made. *)
Definition project_id_unresolved (project_id : option UUID) : M State bool :=
  match project_id with
  | None => mret false
  | Some pid =>
      project ← on_project_repo (ProjectRepository.get_by_id pid);
      mret (match project with None => true | Some _ => false end)
  end.

(** ** Task handlers *)

Definition create_task (task : Task.t) : M State Task.t :=
  unresolved ← project_id_unresolved (Task.project_id task);
  if unresolved : bool
  then raise (HTTPException HTTP_400_BAD_REQUEST "Project not found")
  else on_task_repo (TaskRepository.create task).

Definition list_tasks : M State (list Task.t) :=
  on_task_repo TaskRepository.get_all.

Definition get_task (task_id : UUID) : M State Task.t :=
  validate_task_exists task_id.

Definition update_task (task_id : UUID) (task : Task.t) : M State Task.t :=
  if decide (task_id ≠ Task.id task)
  then raise (HTTPException HTTP_400_BAD_REQUEST "Task ID mismatch")
  else
    validate_task_exists task_id ;;
    unresolved ← project_id_unresolved (Task.project_id task);
    if unresolved : bool
    then raise (HTTPException HTTP_400_BAD_REQUEST "Project not found")
    else on_task_repo (TaskRepository.update task).

Definition delete_task (task_id : UUID) : M State unit :=
  validate_task_exists task_id ;;
  on_task_repo (TaskRepository.delete task_id).

Definition assign_in_place (key : UUID) (task : Task.t) : M State unit :=
  λ st, (Return tt, set_task_repo (<[key := task]> (task_repo st)) st).

(** [task] is the very object held by the dictionary under [task_id], so
    the assignment [task.status = status] already changes that entry, before
    the repository's [update] is called with the same object. *)
Definition update_task_status (task_id : UUID) (status : TaskStatus)
  : M State Task.t :=
  task ← validate_task_exists task_id;
  let task := Task.set_status status task in
  assign_in_place task_id task ;;
  on_task_repo (TaskRepository.update task).

(** ** Project handlers *)

Definition create_project (project : Project.t) : M State Project.t :=
  on_project_repo (ProjectRepository.create project).

Definition list_projects : M State (list Project.t) :=
  on_project_repo ProjectRepository.get_all.

Definition get_project (project_id : UUID) : M State Project.t :=
  validate_project_exists project_id.

Definition get_project_tasks (project_id : UUID) : M State (list Task.t) :=
  validate_project_exists project_id ;;
  on_task_repo (TaskRepository.get_by_project project_id).

(** The body of the loop of [delete_project]: [task_repo.delete(task.id)]. *)
Definition delete_one (task : Task.t) : M State unit :=
  on_task_repo (TaskRepository.delete (Task.id task)).

(** The list of the project's tasks is built once, before the loop. *)
Definition delete_project (project_id : UUID) : M State unit :=
  validate_project_exists project_id ;;
  tasks ← on_task_repo (TaskRepository.get_by_project project_id);
  for_each tasks delete_one ;;
  on_project_repo (ProjectRepository.delete project_id).

(** ** User handlers *)

Definition create_user (user : User.t) : M State User.t :=
  on_user_repo (UserRepository.create user).

Definition list_users : M State (list User.t) :=
  on_user_repo UserRepository.get_all.

Definition get_user (user_id : UUID) : M State User.t :=
  validate_user_exists user_id.

(** ** Requests

    The exposed operations, one constructor per route, and the states that a
    sequence of requests can reach from the initial one.  A request that
    raises still counts as a step: whatever it leaves behind is observable. *)

Inductive request :=
  | CreateTask (task : Task.t)
  | ListTasks
  | GetTask (task_id : UUID)
  | UpdateTask (task_id : UUID) (task : Task.t)
  | DeleteTask (task_id : UUID)
  | UpdateTaskStatus (task_id : UUID) (status : TaskStatus)
  | CreateProject (project : Project.t)
  | ListProjects
  | GetProject (project_id : UUID)
  | GetProjectTasks (project_id : UUID)
  | DeleteProject (project_id : UUID)
  | CreateUser (user : User.t)
  | ListUsers
  | GetUser (user_id : UUID).

Inductive response :=
  | OneTask (task : Task.t)
  | Tasks (tasks : list Task.t)
  | OneProject (project : Project.t)
  | Projects (projects : list Project.t)
  | OneUser (user : User.t)
  | Users (users : list User.t)
  | NoContent.

Definition respond {A} (f : A → response) (m : M State A) : M State response :=
  a ← m; mret (f a).

Definition handle (r : request) : M State response :=
  match r with
  | CreateTask task => respond OneTask (create_task task)
  | ListTasks => respond Tasks list_tasks
  | GetTask task_id => respond OneTask (get_task task_id)
  | UpdateTask task_id task => respond OneTask (update_task task_id task)
  | DeleteTask task_id => respond (λ _, NoContent) (delete_task task_id)
  | UpdateTaskStatus task_id status =>
      respond OneTask (update_task_status task_id status)
  | CreateProject project => respond OneProject (create_project project)
  | ListProjects => respond Projects list_projects
  | GetProject project_id => respond OneProject (get_project project_id)
  | GetProjectTasks project_id => respond Tasks (get_project_tasks project_id)
  | DeleteProject project_id =>
      respond (λ _, NoContent) (delete_project project_id)
  | CreateUser user => respond OneUser (create_user user)
  | ListUsers => respond Users list_users
  | GetUser user_id => respond OneUser (get_user user_id)
  end.

Inductive reachable : State → Prop :=
  | reachable_initial : reachable initial_state
  | reachable_handle st r : reachable st → reachable (handle r st).2.

(** Running a list of requests in order, for concrete scenarios. *)
Definition run (rs : list request) (st : State) : State :=
  foldl (λ st r, (handle r st).2) st rs.

(** ** Properties of states *)

(** Every record is filed under its own identifier. *)
Definition keys_consistent {A} (id : A → UUID) (d : gmap UUID A) : Prop :=
  ∀ k x, d !! k = Some x → id x = k.

(** Every stored task that names a project names a stored project. *)
Definition no_orphans (st : State) : Prop :=
  ∀ k task pid,
    task_repo st !! k = Some task →
    Task.project_id task = Some pid →
    is_Some (project_repo st !! pid).

Definition consistent (st : State) : Prop :=
  keys_consistent Task.id (task_repo st) ∧
  keys_consistent Project.id (project_repo st) ∧
  keys_consistent User.id (user_repo st) ∧
  no_orphans st.

(** A repository method keeps records filed under their identifiers. *)
Definition preserves_keys {A B} (id : A → UUID) (m : M (gmap UUID A) B) : Prop :=
  ∀ d, keys_consistent id d → keys_consistent id (m d).2.

(** A 4xx status: the failure is reported as the caller's. *)
Definition is_client_error (e : exn) : bool :=
  match e with
  | HTTPException code _ => bool_decide (400 ≤ code < 500)%N
  | ValueError _ => false
  end.

(** ** Definitions used to state the properties *)

(** The outcome of the condition guarding [create_task] and [update_task],
    read off the state. *)
Definition unresolved (st : State) (project_id : option UUID) : bool :=
  match project_id with
  | None => false
  | Some pid => bool_decide (project_repo st !! pid = None)
  end.

(** The list built by [get_by_project]. *)
Definition project_tasks (project_id : UUID) (d : gmap UUID Task.t)
  : list Task.t :=
  filter (λ task, Task.project_id task = Some project_id) (map_to_list d).*2.

(** The dictionary left by deleting the identifiers of [l] one after the
    other. *)
Definition delete_each (l : list Task.t) (d : gmap UUID Task.t)
  : gmap UUID Task.t :=
  foldl (λ d task, delete (Task.id task) d) d l.

(** The project reference of a task resolves in a state. *)
Definition reference_resolves (st : State) (task : Task.t) : Prop :=
  ∀ pid, Task.project_id task = Some pid → is_Some (project_repo st !! pid).

(** The contract of a repository's [update]: it raises the repository's
    "not found" [ValueError], changing nothing, when the record's identifier
    is not a key of the dictionary; otherwise it returns the record and
    [get_by_id] then returns exactly that record, the other entries being
    untouched. *)
Definition update_replaces {A} (id : A → UUID) (not_found : string)
    (get_by_id : UUID → M (gmap UUID A) (option A))
    (update : A → M (gmap UUID A) A) : Prop :=
  ∀ (x : A) (d : gmap UUID A),
    (d !! id x = None → update x d = (Raise (ValueError not_found), d)) ∧
    (∀ old, d !! id x = Some old →
       ∃ d', update x d = (Return x, d') ∧
             get_by_id (id x) d' = (Return (Some x), d') ∧
             ∀ k, k ≠ id x → d' !! k = d !! k).

(** The contract of a repository's [create] when the identifier is already
    a key: no error, the new record is what [get_by_id] returns, and
    [get_all] lists the new record in place of the old entry (same number of
    records; apart from the new one, exactly the records stored under the
    other keys). *)
Definition create_overwrites {A} (id : A → UUID)
    (get_by_id : UUID → M (gmap UUID A) (option A))
    (get_all : M (gmap UUID A) (list A))
    (create : A → M (gmap UUID A) A) : Prop :=
  ∀ (x old : A) (d : gmap UUID A),
    d !! id x = Some old →
    ∃ d' before after,
      create x d = (Return x, d') ∧
      get_by_id (id x) d' = (Return (Some x), d') ∧
      get_all d = (Return before, d) ∧
      get_all d' = (Return after, d') ∧
      x ∈ after ∧
      length after = length before ∧
      ∀ y, y ∈ after ↔ y = x ∨ ∃ k, k ≠ id x ∧ d !! k = Some y.

(** ** A concrete scenario

    One project, two tasks attached to it and one task without a project. *)

Definition demo_project : Project.t := Project.mk 1 "Website" None.
Definition demo_task1 : Task.t := Task.mk 11 "Design" None TODO (Some 1%N).
Definition demo_task2 : Task.t :=
  Task.mk 12 "Build" (Some "static pages") IN_PROGRESS (Some 1%N).
Definition demo_task3 : Task.t := Task.mk 13 "Groceries" None TODO None.

Definition demo_state : State :=
  run [CreateProject demo_project; CreateTask demo_task1;
       CreateTask demo_task2; CreateTask demo_task3] initial_state.

(** A dictionary holding one task, and a record to replace it with. *)
Definition demo_dict : gmap UUID Task.t := {[ 11%N := demo_task1 ]}.
Definition demo_task1_revised : Task.t := Task.mk 11 "Redesign" None DONE None.
Definition demo_task_dangling : Task.t := Task.mk 14 "Deploy" None TODO (Some 5%N).

(** A task without a title text. *)
Definition untitled_task : Task.t := Task.mk 7 "" None TODO None.

(** ** Further contracts and classifications *)

(** The contract of a repository's [delete]: with a key that is not stored
    it raises the repository's "not found" [ValueError] and changes nothing;
    with a stored key it returns, the key is then absent, every other entry
    is as before, [get_all] is one record shorter, and a second [delete] of
    the same key raises. *)
Definition delete_removes {A} (not_found : string)
    (get_by_id : UUID → M (gmap UUID A) (option A))
    (get_all : M (gmap UUID A) (list A))
    (delete : UUID → M (gmap UUID A) unit) : Prop :=
  ∀ (key : UUID) (d : gmap UUID A),
    (d !! key = None → delete key d = (Raise (ValueError not_found), d)) ∧
    (∀ x, d !! key = Some x →
       ∃ d' before after,
         delete key d = (Return tt, d') ∧
         get_by_id key d' = (Return None, d') ∧
         (∀ k, k ≠ key → d' !! k = d !! k) ∧
         get_all d = (Return before, d) ∧
         get_all d' = (Return after, d') ∧
         length before = S (length after) ∧
         delete key d' = (Raise (ValueError not_found), d')).

(** The contract of a repository's [create]: it never raises, [get_by_id]
    then returns the record, every entry under another key is as before, and
    when the identifier was not stored [get_all] keeps every record it had
    and is one record longer. *)
Definition create_inserts {A} (id : A → UUID)
    (get_by_id : UUID → M (gmap UUID A) (option A))
    (get_all : M (gmap UUID A) (list A))
    (create : A → M (gmap UUID A) A) : Prop :=
  ∀ (x : A) (d : gmap UUID A),
    ∃ d' before after,
      create x d = (Return x, d') ∧
      get_by_id (id x) d' = (Return (Some x), d') ∧
      (∀ k, k ≠ id x → d' !! k = d !! k) ∧
      get_all d = (Return before, d) ∧
      get_all d' = (Return after, d') ∧
      (d !! id x = None →
         length after = S (length before) ∧ ∀ y, y ∈ before → y ∈ after).

(** The requests served by the [GET] routes. *)
Definition is_read (r : request) : bool :=
  match r with
  | ListTasks | GetTask _ | ListProjects | GetProject _
  | GetProjectTasks _ | ListUsers | GetUser _ => true
  | _ => false
  end.

(** The requests that can touch the task stored under [k], a task of
    project [project_id]. *)
Definition may_touch_task (k : UUID) (project_id : option UUID) (r : request)
  : Prop :=
  match r with
  | CreateTask task => Task.id task = k
  | UpdateTask task_id _ => task_id = k
  | DeleteTask task_id => task_id = k
  | UpdateTaskStatus task_id _ => task_id = k
  | DeleteProject pid => project_id = Some pid
  | _ => False
  end.

(** The exceptions the handlers raise on purpose. *)
Definition handler_errors : list exn :=
  [HTTPException HTTP_404_NOT_FOUND "Task not found";
   HTTPException HTTP_404_NOT_FOUND "Project not found";
   HTTPException HTTP_404_NOT_FOUND "User not found";
   HTTPException HTTP_400_BAD_REQUEST "Project not found";
   HTTPException HTTP_400_BAD_REQUEST "Task ID mismatch"].

(** A second project and a user for the scenarios. *)
Definition demo_project2 : Project.t := Project.mk 2 "Garden" (Some "spring").
Definition demo_user : User.t := User.mk 21 "ada" "ada@example.org".
Definition demo_task4 : Task.t := Task.mk 15 "Sketch" None TODO (Some 1%N).

(** The third task of the scenario, attached to the project. *)
Definition demo_task3_moved : Task.t := Task.mk 13 "Groceries" None TODO (Some 1%N).

(** * Proofs *)

(** ** The monad *)

Lemma bind_Return {S A B} (m : M S A) (k : A → M S B) s a s' :
  m s = (Return a, s') → (m ≫= k) s = k a s'.
Proof. intros H. unfold mbind, M_bind, bind. by rewrite H. Qed.

Lemma bind_Raise {S A B} (m : M S A) (k : A → M S B) s e s' :
  m s = (Raise e, s') → (m ≫= k) s = (Raise e, s').
Proof. intros H. unfold mbind, M_bind, bind. by rewrite H. Qed.

(** ** Record bookkeeping *)

Lemma set_task_repo_id st : set_task_repo (task_repo st) st = st.
Proof. by destruct st. Qed.
Lemma set_project_repo_id st : set_project_repo (project_repo st) st = st.
Proof. by destruct st. Qed.
Lemma set_user_repo_id st : set_user_repo (user_repo st) st = st.
Proof. by destruct st. Qed.

(** ** What each handler computes *)

Ltac unfold_handlers :=
  unfold handle, respond,
    create_task, list_tasks, get_task, update_task, delete_task,
    update_task_status, assign_in_place,
    create_project, list_projects, get_project, get_project_tasks,
    create_user, list_users, get_user,
    validate_task_exists, validate_project_exists, validate_user_exists,
    project_id_unresolved, delete_one,
    on_task_repo, on_project_repo, on_user_repo,
    TaskRepository.get_all, TaskRepository.get_by_id, TaskRepository.create,
    TaskRepository.update, TaskRepository.delete, TaskRepository.get_by_project,
    ProjectRepository.get_all, ProjectRepository.get_by_id,
    ProjectRepository.create, ProjectRepository.update, ProjectRepository.delete,
    UserRepository.get_all, UserRepository.get_by_id, UserRepository.create,
    UserRepository.update, UserRepository.delete,
    Repository.get_all, Repository.get_by_id, Repository.create,
    Repository.update, Repository.delete,
    mbind, M_bind, bind, mret, M_ret, ret, raise;
  rewrite ?set_task_repo_id, ?set_project_repo_id, ?set_user_repo_id.

Lemma validate_task_exists_eq task_id st :
  validate_task_exists task_id st =
  match task_repo st !! task_id with
  | None => (Raise (HTTPException HTTP_404_NOT_FOUND "Task not found"), st)
  | Some task => (Return task, st)
  end.
Proof. unfold_handlers. by destruct (task_repo st !! task_id). Qed.

Lemma validate_project_exists_eq project_id st :
  validate_project_exists project_id st =
  match project_repo st !! project_id with
  | None => (Raise (HTTPException HTTP_404_NOT_FOUND "Project not found"), st)
  | Some project => (Return project, st)
  end.
Proof. unfold_handlers. by destruct (project_repo st !! project_id). Qed.

Lemma validate_user_exists_eq user_id st :
  validate_user_exists user_id st =
  match user_repo st !! user_id with
  | None => (Raise (HTTPException HTTP_404_NOT_FOUND "User not found"), st)
  | Some user => (Return user, st)
  end.
Proof. unfold_handlers. by destruct (user_repo st !! user_id). Qed.

Lemma project_id_unresolved_eq project_id st :
  project_id_unresolved project_id st = (Return (unresolved st project_id), st).
Proof.
  destruct project_id as [pid|]; [|done]. unfold_handlers. simpl.
  destruct (project_repo st !! pid) eqn:E.
  - by rewrite bool_decide_eq_false_2.
  - by rewrite bool_decide_eq_true_2.
Qed.

Lemma reference_resolves_unresolved st task :
  reference_resolves st task → unresolved st (Task.project_id task) = false.
Proof.
  intros Hres. destruct (Task.project_id task) as [pid|] eqn:E; [|done].
  simpl. apply bool_decide_eq_false. apply not_eq_None_Some. by apply Hres.
Qed.

Lemma create_task_eq task st :
  create_task task st =
  if unresolved st (Task.project_id task)
  then (Raise (HTTPException HTTP_400_BAD_REQUEST "Project not found"), st)
  else (Return task, set_task_repo (<[Task.id task := task]> (task_repo st)) st).
Proof.
  unfold create_task.
  rewrite (bind_Return _ _ _ _ _ (project_id_unresolved_eq _ _)).
  by destruct (unresolved st _).
Qed.

Lemma update_task_eq task_id task st :
  update_task task_id task st =
  if decide (task_id ≠ Task.id task)
  then (Raise (HTTPException HTTP_400_BAD_REQUEST "Task ID mismatch"), st)
  else match task_repo st !! task_id with
       | None => (Raise (HTTPException HTTP_404_NOT_FOUND "Task not found"), st)
       | Some _ =>
           if unresolved st (Task.project_id task)
           then (Raise (HTTPException HTTP_400_BAD_REQUEST "Project not found"), st)
           else (Return task,
                 set_task_repo (<[Task.id task := task]> (task_repo st)) st)
       end.
Proof.
  unfold update_task. destruct (decide (task_id ≠ Task.id task)) as [|Heq]; [done|].
  apply dec_stable in Heq. subst task_id.
  pose proof (validate_task_exists_eq (Task.id task) st) as Hv.
  destruct (task_repo st !! Task.id task) as [old|] eqn:E.
  - rewrite (bind_Return _ _ _ _ _ Hv).
    rewrite (bind_Return _ _ _ _ _ (project_id_unresolved_eq _ _)).
    destruct (unresolved st _); [done|].
    unfold_handlers. by rewrite E.
  - by rewrite (bind_Raise _ _ _ _ _ Hv).
Qed.

Lemma delete_task_eq task_id st :
  delete_task task_id st =
  match task_repo st !! task_id with
  | None => (Raise (HTTPException HTTP_404_NOT_FOUND "Task not found"), st)
  | Some _ => (Return tt, set_task_repo (delete task_id (task_repo st)) st)
  end.
Proof.
  unfold_handlers. destruct (task_repo st !! task_id) eqn:E; [|done].
  simpl. by rewrite E.
Qed.

(** Without any assumption on the state: the write made through the fetched
    object comes first, and only then does the repository look up the
    object's own identifier. *)
Lemma update_task_status_eq task_id status st :
  update_task_status task_id status st =
  match task_repo st !! task_id with
  | None => (Raise (HTTPException HTTP_404_NOT_FOUND "Task not found"), st)
  | Some task =>
      let task' := Task.set_status status task in
      let d := <[task_id := task']> (task_repo st) in
      match d !! Task.id task with
      | None => (Raise (ValueError "Task not found"), set_task_repo d st)
      | Some _ => (Return task', set_task_repo (<[Task.id task := task']> d) st)
      end
  end.
Proof.
  unfold_handlers. destruct (task_repo st !! task_id) as [task|]; [|done].
  simpl. by destruct (_ !! Task.id task).
Qed.

Lemma update_task_status_consistent_eq task_id status st :
  keys_consistent Task.id (task_repo st) →
  update_task_status task_id status st =
  match task_repo st !! task_id with
  | None => (Raise (HTTPException HTTP_404_NOT_FOUND "Task not found"), st)
  | Some task =>
      (Return (Task.set_status status task),
       set_task_repo (<[task_id := Task.set_status status task]> (task_repo st)) st)
  end.
Proof.
  intros Hk. rewrite update_task_status_eq.
  destruct (task_repo st !! task_id) as [task|] eqn:E; [|done].
  rewrite (Hk _ _ E). cbn zeta. by rewrite lookup_insert_eq, insert_insert_eq.
Qed.

Lemma create_project_eq project st :
  create_project project st =
  (Return project,
   set_project_repo (<[Project.id project := project]> (project_repo st)) st).
Proof. done. Qed.

Lemma create_user_eq user st :
  create_user user st =
  (Return user, set_user_repo (<[User.id user := user]> (user_repo st)) st).
Proof. done. Qed.

Lemma list_tasks_eq st :
  list_tasks st = (Return (map_to_list (task_repo st)).*2, st).
Proof. by unfold_handlers. Qed.

Lemma get_project_tasks_state project_id st :
  (get_project_tasks project_id st).2 = st.
Proof.
  unfold get_project_tasks.
  pose proof (validate_project_exists_eq project_id st) as Hv.
  destruct (project_repo st !! project_id).
  - rewrite (bind_Return _ _ _ _ _ Hv). by unfold_handlers.
  - by rewrite (bind_Raise _ _ _ _ _ Hv).
Qed.

(** ** The cascade of [delete_project] *)

Lemma get_by_project_eq project_id d :
  TaskRepository.get_by_project project_id d
  = (Return (project_tasks project_id d), d).
Proof. done. Qed.

Lemma elem_of_values {A} (d : gmap UUID A) x :
  x ∈ (map_to_list d).*2 ↔ ∃ k, d !! k = Some x.
Proof.
  rewrite list_elem_of_fmap. split.
  - intros [[k y] [-> Hin]]. exists k. by apply elem_of_map_to_list.
  - intros [k Hk]. exists (k, x). split; [done|]. by apply elem_of_map_to_list.
Qed.

Lemma elem_of_project_tasks project_id d task :
  task ∈ project_tasks project_id d ↔
  Task.project_id task = Some project_id ∧ ∃ k, d !! k = Some task.
Proof. unfold project_tasks. by rewrite list_elem_of_filter, elem_of_values. Qed.

Lemma ids_of_values {A} (id : A → UUID) (d : gmap UUID A) :
  keys_consistent id d → id <$> (map_to_list d).*2 = (map_to_list d).*1.
Proof.
  intros Hk. rewrite <-list_fmap_compose. apply list_fmap_ext.
  intros i [k x] Hi. simpl. apply Hk.
  apply elem_of_map_to_list, list_elem_of_lookup. eauto.
Qed.

Lemma NoDup_fmap_filter {A B} (f : A → B) (P : A → Prop)
    `{∀ x, Decision (P x)} (l : list A) :
  NoDup (f <$> l) → NoDup (f <$> filter P l).
Proof.
  intros Hnd. eapply sublist_NoDup; [exact Hnd|].
  apply fmap_sublist, sublist_filter.
Qed.

Lemma project_tasks_NoDup project_id d :
  keys_consistent Task.id d → NoDup (Task.id <$> project_tasks project_id d).
Proof.
  intros Hk. apply NoDup_fmap_filter. rewrite (ids_of_values _ _ Hk).
  apply NoDup_fst_map_to_list.
Qed.

Lemma project_tasks_stored project_id d task :
  keys_consistent Task.id d →
  task ∈ project_tasks project_id d → d !! Task.id task = Some task.
Proof.
  intros Hk [_ [k Hlk]]%elem_of_project_tasks. by rewrite (Hk _ _ Hlk).
Qed.

Lemma delete_one_eq task st :
  delete_one task st =
  match task_repo st !! Task.id task with
  | None => (Raise (ValueError "Task not found"), st)
  | Some _ => (Return tt, set_task_repo (delete (Task.id task) (task_repo st)) st)
  end.
Proof.
  unfold_handlers. destruct (task_repo st !! Task.id task) eqn:E; simpl;
    by rewrite ?E, ?set_task_repo_id.
Qed.

Lemma lookup_delete_each l d k :
  delete_each l d !! k =
  if decide (k ∈ Task.id <$> l) then None else d !! k.
Proof.
  unfold delete_each. revert d. induction l as [|t l IH]; intros d.
  - rewrite decide_False; [done|]. apply not_elem_of_nil.
  - cbn [foldl]. rewrite IH, fmap_cons.
    destruct (decide (k ∈ Task.id <$> l)) as [Hin|Hin].
    + rewrite decide_True; [done|]. by right.
    + destruct (decide (k = Task.id t)) as [->|Hne].
      * rewrite lookup_delete_eq, decide_True; [done|]. left.
      * rewrite lookup_delete_ne, decide_False; [done| |done].
        by intros [?|?]%elem_of_cons.
Qed.

(** Distinct identifiers that are all present: no deletion of the loop
    raises. *)
Lemma cascade_loop l st :
  NoDup (Task.id <$> l) →
  (∀ task, task ∈ l → is_Some (task_repo st !! Task.id task)) →
  for_each l delete_one st
  = (Return tt, set_task_repo (delete_each l (task_repo st)) st).
Proof.
  revert st. induction l as [|t l IH]; intros st Hnd Hin.
  - simpl. by rewrite set_task_repo_id.
  - rewrite fmap_cons in Hnd. apply NoDup_cons in Hnd as [Hnotin Hnd].
    destruct (Hin t) as [x Hx]; [left|].
    cbn [for_each]. erewrite bind_Return; last first.
    { rewrite delete_one_eq, Hx. reflexivity. }
    rewrite IH; [done|done|].
    intros t' Ht'. cbn [task_repo set_task_repo].
    rewrite lookup_delete_ne.
    + apply Hin. by right.
    + intros Heq. apply Hnotin. rewrite Heq. by apply list_elem_of_fmap_2.
Qed.

Lemma delete_each_project_tasks project_id d :
  keys_consistent Task.id d →
  delete_each (project_tasks project_id d) d
  = filter (λ kt, Task.project_id kt.2 ≠ Some project_id) d.
Proof.
  intros Hk. apply map_eq. intros k. rewrite lookup_delete_each.
  case_decide as Hin.
  - symmetry. apply map_lookup_filter_None. right. intros x Hx; simpl.
    apply list_elem_of_fmap in Hin as [t [-> Ht]].
    pose proof (project_tasks_stored _ _ _ Hk Ht) as Hst.
    apply elem_of_project_tasks in Ht as [Hp _]. naive_solver.
  - destruct (d !! k) as [x|] eqn:Hx.
    + symmetry. apply map_lookup_filter_Some. split; [done|]. simpl.
      intros Hp. apply Hin. rewrite <-(Hk _ _ Hx).
      apply list_elem_of_fmap_2, elem_of_project_tasks. eauto.
    + symmetry. apply map_lookup_filter_None. by left.
Qed.

Lemma delete_project_eq project_id st :
  keys_consistent Task.id (task_repo st) →
  delete_project project_id st =
  match project_repo st !! project_id with
  | None => (Raise (HTTPException HTTP_404_NOT_FOUND "Project not found"), st)
  | Some _ =>
      (Return tt,
       {| task_repo :=
            filter (λ kt, Task.project_id kt.2 ≠ Some project_id) (task_repo st);
          project_repo := delete project_id (project_repo st);
          user_repo := user_repo st |})
  end.
Proof.
  intros Hk. unfold delete_project.
  pose proof (validate_project_exists_eq project_id st) as Hv.
  destruct (project_repo st !! project_id) as [project|] eqn:E; last first.
  { by rewrite (bind_Raise _ _ _ _ _ Hv). }
  rewrite (bind_Return _ _ _ _ _ Hv).
  erewrite bind_Return; last first.
  { unfold on_task_repo. rewrite get_by_project_eq, set_task_repo_id. reflexivity. }
  erewrite bind_Return; last first.
  { apply cascade_loop.
    - by apply project_tasks_NoDup.
    - intros t Ht. rewrite (project_tasks_stored _ _ _ Hk Ht). eauto. }
  rewrite (delete_each_project_tasks _ _ Hk).
  unfold_handlers. cbn [project_repo set_task_repo]. by rewrite E.
Qed.

(** ** Invariants of the reachable states *)

Lemma respond_eq {A} (f : A → response) (m : M State A) st :
  respond f m st =
  match m st with
  | (Return a, st') => (Return (f a), st')
  | (Raise e, st') => (Raise e, st')
  end.
Proof. unfold respond, mbind, M_bind, bind. by destruct (m st) as [[a|e] st']. Qed.

Lemma respond_state {A} (f : A → response) (m : M State A) st :
  (respond f m st).2 = (m st).2.
Proof. rewrite respond_eq. by destruct (m st) as [[a|e] st']. Qed.

Ltac project_state :=
  cbn [fst snd task_repo project_repo user_repo
       set_task_repo set_project_repo set_user_repo] in *.

Lemma keys_consistent_empty {A} (id : A → UUID) : keys_consistent id ∅.
Proof. intros k x Hx. by rewrite lookup_empty in Hx. Qed.

Lemma keys_consistent_insert {A} (id : A → UUID) d x :
  keys_consistent id d → keys_consistent id (<[id x := x]> d).
Proof.
  intros Hk k y. rewrite lookup_insert. case_decide; [|by apply Hk].
  intros [= <-]. done.
Qed.

Lemma keys_consistent_delete {A} (id : A → UUID) d key :
  keys_consistent id d → keys_consistent id (delete key d).
Proof.
  intros Hk k y. rewrite lookup_delete. case_decide; [done|]. apply Hk.
Qed.

Lemma keys_consistent_filter {A} (id : A → UUID) (P : UUID * A → Prop)
    `{∀ x, Decision (P x)} d :
  keys_consistent id d → keys_consistent id (filter P d).
Proof. intros Hk k y [Hy _]%map_lookup_filter_Some. by apply Hk. Qed.

Lemma no_orphans_store task st :
  unresolved st (Task.project_id task) = false →
  no_orphans st →
  no_orphans (set_task_repo (<[Task.id task := task]> (task_repo st)) st).
Proof.
  intros Hres Hno k t pid. project_state.
  rewrite lookup_insert. case_decide; [|by apply Hno].
  intros [= <-] Hpid. rewrite Hpid in Hres. simpl in Hres.
  apply bool_decide_eq_false in Hres. by apply not_eq_None_Some.
Qed.

Lemma consistent_initial : consistent initial_state.
Proof.
  repeat split; try apply keys_consistent_empty.
  intros k task pid Hk. cbn [task_repo initial_state] in Hk.
  by rewrite lookup_empty in Hk.
Qed.

Lemma consistent_create_task task st :
  consistent st → consistent (create_task task st).2.
Proof.
  intros (Ht & Hp & Hu & Hno). rewrite create_task_eq.
  destruct (unresolved st _) eqn:Hres; [done|].
  repeat split; [by apply keys_consistent_insert|done|done|].
  by apply no_orphans_store.
Qed.

Lemma consistent_update_task task_id task st :
  consistent st → consistent (update_task task_id task st).2.
Proof.
  intros (Ht & Hp & Hu & Hno). rewrite update_task_eq.
  case_decide; [done|]. destruct (task_repo st !! task_id) as [old|]; [|done].
  destruct (unresolved st _) eqn:Hres; [done|].
  repeat split; [by apply keys_consistent_insert|done|done|].
  by apply no_orphans_store.
Qed.

Lemma consistent_delete_task task_id st :
  consistent st → consistent (delete_task task_id st).2.
Proof.
  intros (Ht & Hp & Hu & Hno). rewrite delete_task_eq.
  destruct (task_repo st !! task_id) as [old|]; [|done].
  repeat split; [by apply keys_consistent_delete|done|done|].
  intros k t pid. project_state.
  rewrite lookup_delete. case_decide; [done|]. apply Hno.
Qed.

Lemma consistent_update_task_status task_id status st :
  consistent st → consistent (update_task_status task_id status st).2.
Proof.
  intros (Ht & Hp & Hu & Hno).
  rewrite (update_task_status_consistent_eq _ _ _ Ht).
  destruct (task_repo st !! task_id) as [task|] eqn:E; [|done].
  repeat split; project_state; [|done|done|].
  - intros k t. rewrite lookup_insert. case_decide as Hk; [|by apply Ht].
    intros [= <-]. subst k. exact (Ht _ _ E).
  - intros k t pid. project_state.
    rewrite lookup_insert. case_decide; [|by apply Hno].
    intros [= <-]. simpl. by apply (Hno _ _ _ E).
Qed.

Lemma consistent_create_project project st :
  consistent st → consistent (create_project project st).2.
Proof.
  intros (Ht & Hp & Hu & Hno). rewrite create_project_eq.
  repeat split; [done|by apply keys_consistent_insert|done|].
  intros k t pid Hk Hpid. project_state.
  rewrite lookup_insert. case_decide; [by eexists|]. by eapply Hno.
Qed.

Lemma consistent_delete_project project_id st :
  consistent st → consistent (delete_project project_id st).2.
Proof.
  intros (Ht & Hp & Hu & Hno). rewrite (delete_project_eq _ _ Ht).
  destruct (project_repo st !! project_id) as [project|]; [|done].
  repeat split; project_state;
    [by apply keys_consistent_filter|by apply keys_consistent_delete|done|].
  intros k t pid [Hk Hne]%map_lookup_filter_Some Hpid. project_state.
  rewrite lookup_delete_ne; [by eapply Hno|]. simpl in Hne. congruence.
Qed.

Lemma consistent_create_user user st :
  consistent st → consistent (create_user user st).2.
Proof.
  intros (Ht & Hp & Hu & Hno). rewrite create_user_eq.
  repeat split; [done|done|by apply keys_consistent_insert|done].
Qed.

Lemma read_only_handlers st :
  (list_tasks st).2 = st ∧ (∀ k, (get_task k st).2 = st) ∧
  (list_projects st).2 = st ∧ (∀ k, (get_project k st).2 = st) ∧
  (∀ k, (get_project_tasks k st).2 = st) ∧
  (list_users st).2 = st ∧ (∀ k, (get_user k st).2 = st).
Proof.
  split_and!; try (by unfold_handlers);
    try (intros k; apply get_project_tasks_state).
  - intros k. unfold get_task. rewrite validate_task_exists_eq.
    by destruct (task_repo st !! k).
  - intros k. unfold get_project. rewrite validate_project_exists_eq.
    by destruct (project_repo st !! k).
  - intros k. unfold get_user. rewrite validate_user_exists_eq.
    by destruct (user_repo st !! k).
Qed.

Lemma consistent_handle r st : consistent st → consistent (handle r st).2.
Proof.
  intros Hc. destruct (read_only_handlers st) as (?&?&?&?&?&?&?).
  destruct r; cbn [handle]; rewrite respond_state;
    auto using consistent_create_task, consistent_update_task,
      consistent_delete_task, consistent_update_task_status,
      consistent_create_project, consistent_delete_project,
      consistent_create_user;
    congruence.
Qed.

Lemma reachable_consistent st : reachable st → consistent st.
Proof.
  induction 1; [apply consistent_initial|by apply consistent_handle].
Qed.

Lemma reachable_run rs st : reachable st → reachable (run rs st).
Proof.
  unfold run. revert st. induction rs as [|r rs IH]; intros st Hst; [done|].
  apply IH. by constructor.
Qed.

Lemma reachable_demo_state : reachable demo_state.
Proof. apply reachable_run. constructor. Qed.

(** * The properties *)

(** C1. In every state reachable through the handlers, every stored task
    whose [project_id] is set references a project that is present in the
    project repository: no reachable state holds an orphaned task. *)
Theorem no_orphaned_task st :
  reachable st →
  ∀ k task pid,
    task_repo st !! k = Some task →
    Task.project_id task = Some pid →
    is_Some (project_repo st !! pid).
Proof. intros Hr. by destruct (reachable_consistent st Hr) as (_ & _ & _ & Hno). Qed.

Lemma no_orphaned_task_witness :
  reachable demo_state ∧
  task_repo demo_state !! 11%N = Some demo_task1 ∧
  Task.project_id demo_task1 = Some 1%N ∧
  is_Some (project_repo demo_state !! 1%N).
Proof.
  split_and!; [apply reachable_demo_state|reflexivity|reflexivity|].
  apply (no_orphaned_task demo_state reachable_demo_state 11%N demo_task1 1%N);
    reflexivity.
Defined.

(** C2. Deleting an existing project first runs the loop that deletes, one
    by one, every task whose [project_id] is the project's identifier, the
    project record still being in place when the loop ends; then it deletes
    the project record.  Afterwards the project and each of its tasks are
    absent, and every task with no project or with another project is still
    stored, unchanged. *)
Theorem delete_project_cascades st project_id project :
  reachable st →
  project_repo st !! project_id = Some project →
  ∃ tasks st1 st2,
    on_task_repo (TaskRepository.get_by_project project_id) st
      = (Return tasks, st) ∧
    (∀ task, task ∈ tasks ↔
       Task.project_id task = Some project_id ∧
       task_repo st !! Task.id task = Some task) ∧
    for_each tasks delete_one st = (Return tt, st1) ∧
    project_repo st1 !! project_id = Some project ∧
    (∀ k task, task_repo st1 !! k = Some task →
       Task.project_id task ≠ Some project_id) ∧
    on_project_repo (ProjectRepository.delete project_id) st1
      = (Return tt, st2) ∧
    delete_project project_id st = (Return tt, st2) ∧
    project_repo st2 !! project_id = None ∧
    (∀ k task, task_repo st !! k = Some task →
       Task.project_id task = Some project_id → task_repo st2 !! k = None) ∧
    (∀ k task, task_repo st !! k = Some task →
       Task.project_id task ≠ Some project_id →
       task_repo st2 !! k = Some task) ∧
    (∀ k, task_repo st !! k = None → task_repo st2 !! k = None) ∧
    (∀ k, k ≠ project_id → project_repo st2 !! k = project_repo st !! k) ∧
    user_repo st2 = user_repo st.
Proof.
  intros Hr Hp. destruct (reachable_consistent st Hr) as (Hk & _ & _ & _).
  set (keep := λ kt : UUID * Task.t, Task.project_id kt.2 ≠ Some project_id).
  exists (project_tasks project_id (task_repo st)),
    (set_task_repo (filter keep (task_repo st)) st),
    {| task_repo := filter keep (task_repo st);
       project_repo := delete project_id (project_repo st);
       user_repo := user_repo st |}.
  split_and!; project_state.
  - unfold on_task_repo. by rewrite get_by_project_eq, set_task_repo_id.
  - intros task. rewrite elem_of_project_tasks. split.
    + intros [Hpid [k Hlk]]. by rewrite (Hk _ _ Hlk).
    + intros [Hpid Hlk]. eauto.
  - rewrite cascade_loop.
    + by rewrite (delete_each_project_tasks _ _ Hk).
    + by apply project_tasks_NoDup.
    + intros t Ht. rewrite (project_tasks_stored _ _ _ Hk Ht). eauto.
  - done.
  - by intros k task [_ Hne]%map_lookup_filter_Some.
  - unfold_handlers. project_state. by rewrite Hp.
  - by rewrite (delete_project_eq _ _ Hk), Hp.
  - apply lookup_delete_eq.
  - intros k task Hlk Hpid. apply map_lookup_filter_None. right.
    intros x Hx. unfold keep; simpl. naive_solver.
  - intros k task Hlk Hpid. by apply map_lookup_filter_Some.
  - intros k Hlk. apply map_lookup_filter_None. by left.
  - intros k Hne. by rewrite lookup_delete_ne.
  - done.
Qed.

Lemma delete_project_cascades_witness :
  reachable demo_state ∧
  project_repo demo_state !! 1%N = Some demo_project ∧
  (delete_project 1%N demo_state).1 = Return tt ∧
  task_repo (delete_project 1%N demo_state).2 !! 11%N = None ∧
  task_repo (delete_project 1%N demo_state).2 !! 12%N = None ∧
  task_repo (delete_project 1%N demo_state).2 !! 13%N = Some demo_task3 ∧
  project_repo (delete_project 1%N demo_state).2 !! 1%N = None.
Proof.
  split; [apply reachable_demo_state|]. split; [reflexivity|].
  destruct (delete_project_cascades demo_state 1%N demo_project
              reachable_demo_state eq_refl)
    as (tasks & st1 & st2 & _ & _ & _ & _ & _ & _ & Hdel & Hp & Hgone & Hkept & _).
  rewrite Hdel. cbn [fst snd]. split_and!.
  - done.
  - by apply (Hgone 11%N demo_task1).
  - by apply (Hgone 12%N demo_task2).
  - by apply (Hkept 13%N demo_task3).
  - done.
Defined.

(** C10. While an existing project is being deleted the loop never reaches
    the raising branch of the repository's [delete]: whenever the loop comes
    to a task of the list built by [get_by_project], having deleted the ones
    before it, that task's identifier is still in the task dictionary and its
    deletion returns normally; so the whole loop, and [delete_project],
    return without raising. *)
Theorem cascade_never_raises st project_id project :
  reachable st →
  project_repo st !! project_id = Some project →
  ∃ tasks,
    on_task_repo (TaskRepository.get_by_project project_id) st
      = (Return tasks, st) ∧
    (∀ before task after, tasks = before ++ task :: after →
       ∃ st_mid st_next,
         for_each before delete_one st = (Return tt, st_mid) ∧
         is_Some (task_repo st_mid !! Task.id task) ∧
         on_task_repo (TaskRepository.delete (Task.id task)) st_mid
           = (Return tt, st_next)) ∧
    (∃ st1, for_each tasks delete_one st = (Return tt, st1)) ∧
    (∃ st2, delete_project project_id st = (Return tt, st2)).
Proof.
  intros Hr Hp. destruct (reachable_consistent st Hr) as (Hk & _ & _ & _).
  pose proof (project_tasks_NoDup project_id _ Hk) as Hnd.
  assert (∀ t, t ∈ project_tasks project_id (task_repo st) →
               task_repo st !! Task.id t = Some t) as Hin.
  { intros t. by apply project_tasks_stored. }
  exists (project_tasks project_id (task_repo st)). split_and!.
  - unfold on_task_repo. by rewrite get_by_project_eq, set_task_repo_id.
  - intros before task after Heq. rewrite Heq in Hnd, Hin.
    rewrite fmap_app, fmap_cons in Hnd.
    apply NoDup_app in Hnd as (Hnd1 & Hdisj & _).
    assert (task_repo (set_task_repo (delete_each before (task_repo st)) st)
              !! Task.id task = Some task) as Hlk.
    { project_state. rewrite lookup_delete_each, decide_False.
      - apply Hin. apply elem_of_app. right. left.
      - intros Hb. apply (Hdisj _ Hb). left. }
    eexists _, _. split_and!.
    + apply cascade_loop; [done|]. intros t Ht. rewrite Hin; [eauto|].
      apply elem_of_app. by left.
    + rewrite Hlk. eauto.
    + change (on_task_repo (TaskRepository.delete (Task.id task)))
        with (delete_one task).
      rewrite delete_one_eq, Hlk. reflexivity.
  - eexists. apply cascade_loop; [done|]. intros t Ht. rewrite Hin; eauto.
  - eexists. by rewrite (delete_project_eq _ _ Hk), Hp.
Qed.

Lemma cascade_never_raises_witness :
  reachable demo_state ∧
  project_repo demo_state !! 1%N = Some demo_project ∧
  ∃ st2, delete_project 1%N demo_state = (Return tt, st2).
Proof.
  split; [apply reachable_demo_state|]. split; [reflexivity|].
  destruct (cascade_never_raises demo_state 1%N demo_project
              reachable_demo_state eq_refl) as (tasks & _ & _ & _ & Hdel).
  exact Hdel.
Defined.

(** C3. [create_task] with a [project_id] that is set but is not found in
    the project repository raises the 400 "Project not found" exception, a
    client error, and stores nothing; with [project_id] unset it always
    returns the task, which a following [get_task] returns and a following
    [list_tasks] contains. *)
Theorem create_task_checks_reference st task :
  (∀ pid,
     Task.project_id task = Some pid →
     project_repo st !! pid = None →
     ∃ e, create_task task st = (Raise e, st) ∧
          e = HTTPException HTTP_400_BAD_REQUEST "Project not found" ∧
          is_client_error e = true) ∧
  (Task.project_id task = None →
     ∃ st' tasks,
       create_task task st = (Return task, st') ∧
       get_task (Task.id task) st' = (Return task, st') ∧
       list_tasks st' = (Return tasks, st') ∧
       task ∈ tasks).
Proof.
  split.
  - intros pid Hpid Hnone. eexists. split_and!; [|done|done].
    rewrite create_task_eq, Hpid. simpl. by rewrite bool_decide_eq_true_2.
  - intros Hpid. eexists _, _. split_and!.
    + rewrite create_task_eq, Hpid. reflexivity.
    + unfold get_task. rewrite validate_task_exists_eq. project_state.
      by rewrite lookup_insert_eq.
    + apply list_tasks_eq.
    + project_state. apply elem_of_values. exists (Task.id task).
      apply lookup_insert_eq.
Qed.

Lemma create_task_checks_reference_witness :
  (Task.project_id demo_task_dangling = Some 5%N ∧
   project_repo demo_state !! 5%N = None ∧
   create_task demo_task_dangling demo_state
   = (Raise (HTTPException 400 "Project not found"), demo_state)) ∧
  (Task.project_id demo_task3 = None ∧
   ∃ st', create_task demo_task3 initial_state = (Return demo_task3, st') ∧
          get_task 13%N st' = (Return demo_task3, st')).
Proof.
  split.
  - split_and!; [reflexivity|reflexivity|].
    destruct (create_task_checks_reference demo_state demo_task_dangling)
      as [Hbad _].
    destruct (Hbad 5%N eq_refl eq_refl) as (e & Hrun & -> & _). exact Hrun.
  - split; [reflexivity|].
    destruct (create_task_checks_reference initial_state demo_task3)
      as [_ Hgood].
    destruct (Hgood eq_refl) as (st' & tasks & Hrun & Hget & _). eauto.
Defined.

Lemma generic_update_replaces {A} (id : A → UUID) (not_found : string) :
  update_replaces id not_found Repository.get_by_id
    (Repository.update id not_found).
Proof.
  intros x d. unfold Repository.update, Repository.get_by_id. split.
  - by intros ->.
  - intros old ->. eexists. split_and!; [done| |].
    + by rewrite lookup_insert_eq.
    + intros k Hne. by rewrite lookup_insert_ne.
Qed.

(** C4. In each of the three repositories, [update] fails with the
    repository's not-found error when the record's identifier is not in the
    store, and otherwise replaces the stored record as a whole: [get_by_id]
    then returns exactly the new record. *)
Theorem repository_update_replaces :
  update_replaces Task.id "Task not found"
    TaskRepository.get_by_id TaskRepository.update ∧
  update_replaces Project.id "Project not found"
    ProjectRepository.get_by_id ProjectRepository.update ∧
  update_replaces User.id "User not found"
    UserRepository.get_by_id UserRepository.update.
Proof. split_and!; apply generic_update_replaces. Qed.

Lemma repository_update_replaces_witness :
  demo_dict !! 11%N = Some demo_task1 ∧
  demo_dict !! 12%N = None ∧
  TaskRepository.update demo_task2 demo_dict
    = (Raise (ValueError "Task not found"), demo_dict) ∧
  ∃ d', TaskRepository.update demo_task1_revised demo_dict
          = (Return demo_task1_revised, d') ∧
        TaskRepository.get_by_id 11%N d'
          = (Return (Some demo_task1_revised), d').
Proof.
  destruct repository_update_replaces as (Htask & _ & _).
  split_and!; [reflexivity|reflexivity| |].
  - destruct (Htask demo_task2 demo_dict) as [Hmiss _]. apply Hmiss.
    reflexivity.
  - destruct (Htask demo_task1_revised demo_dict) as [_ Hhit].
    destruct (Hhit demo_task1 eq_refl) as (d' & Hupd & Hget & _). eauto.
Defined.

Lemma generic_create_overwrites {A} (id : A → UUID) :
  create_overwrites id Repository.get_by_id Repository.get_all
    (Repository.create id).
Proof.
  intros x old d Hold. eexists _, _, _.
  unfold Repository.create, Repository.get_by_id, Repository.get_all.
  split_and!; try reflexivity.
  - by rewrite lookup_insert_eq.
  - apply elem_of_values. exists (id x). apply lookup_insert_eq.
  - rewrite !length_fmap, !length_map_to_list.
    apply map_size_insert_Some. eauto.
  - intros y. rewrite elem_of_values. split.
    + intros [k Hk]. rewrite lookup_insert in Hk. case_decide.
      * left. congruence.
      * right. eauto.
    + intros [->|(k & Hne & Hk)].
      * exists (id x). apply lookup_insert_eq.
      * exists k. by rewrite lookup_insert_ne.
Qed.

(** C8. In each of the three repositories, [create] of a record whose
    identifier is already stored raises nothing and overwrites the entry:
    the new record is what [get_by_id] and [get_all] then show. *)
Theorem repository_create_overwrites :
  create_overwrites Task.id TaskRepository.get_by_id
    TaskRepository.get_all TaskRepository.create ∧
  create_overwrites Project.id ProjectRepository.get_by_id
    ProjectRepository.get_all ProjectRepository.create ∧
  create_overwrites User.id UserRepository.get_by_id
    UserRepository.get_all UserRepository.create.
Proof. split_and!; apply generic_create_overwrites. Qed.

Lemma repository_create_overwrites_witness :
  demo_dict !! Task.id demo_task1_revised = Some demo_task1 ∧
  ∃ d', TaskRepository.create demo_task1_revised demo_dict
          = (Return demo_task1_revised, d') ∧
        TaskRepository.get_by_id 11%N d'
          = (Return (Some demo_task1_revised), d') ∧
        ∃ after, TaskRepository.get_all d' = (Return after, d') ∧
                 demo_task1_revised ∈ after ∧ length after = 1.
Proof.
  split; [reflexivity|].
  destruct repository_create_overwrites as (Htask & _ & _).
  destruct (Htask demo_task1_revised demo_task1 demo_dict eq_refl)
    as (d' & before & after & Hc & Hg & Hb & Ha & Hin & Hlen & _).
  exists d'. split_and!; [done|done|]. exists after. split_and!; [done|done|].
  rewrite Hlen. injection Hb as <-. reflexivity.
Defined.

(** ** Failing requests *)

Lemma create_task_raise task st e st' :
  create_task task st = (Raise e, st') → st' = st.
Proof. rewrite create_task_eq. destruct (unresolved st _); congruence. Qed.

Lemma update_task_raise task_id task st e st' :
  update_task task_id task st = (Raise e, st') → st' = st.
Proof.
  rewrite update_task_eq. case_decide; [congruence|].
  destruct (task_repo st !! task_id); [|congruence].
  destruct (unresolved st _); congruence.
Qed.

Lemma delete_task_raise task_id st e st' :
  delete_task task_id st = (Raise e, st') → st' = st.
Proof.
  rewrite delete_task_eq. destruct (task_repo st !! task_id); congruence.
Qed.

Lemma update_task_status_raise task_id status st e st' :
  keys_consistent Task.id (task_repo st) →
  update_task_status task_id status st = (Raise e, st') → st' = st.
Proof.
  intros Hk. rewrite (update_task_status_consistent_eq _ _ _ Hk).
  destruct (task_repo st !! task_id); congruence.
Qed.

Lemma delete_project_raise project_id st e st' :
  keys_consistent Task.id (task_repo st) →
  delete_project project_id st = (Raise e, st') → st' = st.
Proof.
  intros Hk. rewrite (delete_project_eq _ _ Hk).
  destruct (project_repo st !! project_id); congruence.
Qed.

Lemma read_only_raise {A} (m : M State A) st e st' :
  (m st).2 = st → m st = (Raise e, st') → st' = st.
Proof. intros Hro Hm. rewrite Hm in Hro. by simpl in Hro. Qed.

Lemma respond_raise {A} (f : A → response) (m : M State A) st e st' :
  respond f m st = (Raise e, st') → m st = (Raise e, st').
Proof. rewrite respond_eq. destruct (m st) as [[a|e'] s]; congruence. Qed.

(** Why reachability matters for [update_task_status]: in a dictionary
    where a task is filed under a key that is not its identifier (which no
    sequence of requests produces), the status has already been written
    through the fetched object when the repository's [update] raises. *)
Remark status_write_precedes_lookup :
  update_task_status 5%N DONE (set_task_repo {[ 5%N := demo_task1 ]} initial_state)
  = (Raise (ValueError "Task not found"),
     set_task_repo {[ 5%N := Task.set_status DONE demo_task1 ]} initial_state).
Proof. rewrite update_task_status_eq. vm_compute. reflexivity. Qed.

(** C5. A request that fails leaves the three repositories exactly as they
    were.  For [update_task] each of its three failures is spelled out: an
    identifier in the path that differs from the one in the body (400 "Task
    ID mismatch"), an identifier that is not stored (404 "Task not found"),
    and a project reference that does not resolve (400 "Project not
    found"); in each case the state returned is the state given.  For every
    request made in a reachable state, a raised exception comes with the
    state unchanged. *)
Theorem failed_request_changes_nothing :
  (∀ st task_id task,
     task_id ≠ Task.id task →
     update_task task_id task st
     = (Raise (HTTPException HTTP_400_BAD_REQUEST "Task ID mismatch"), st)) ∧
  (∀ st task,
     task_repo st !! Task.id task = None →
     update_task (Task.id task) task st
     = (Raise (HTTPException HTTP_404_NOT_FOUND "Task not found"), st)) ∧
  (∀ st task old pid,
     task_repo st !! Task.id task = Some old →
     Task.project_id task = Some pid →
     project_repo st !! pid = None →
     update_task (Task.id task) task st
     = (Raise (HTTPException HTTP_400_BAD_REQUEST "Project not found"), st)) ∧
  (∀ st r e st',
     reachable st →
     handle r st = (Raise e, st') →
     st' = st).
Proof.
  split_and!.
  - intros st task_id task Hne. rewrite update_task_eq. by rewrite decide_True.
  - intros st task Hnone. rewrite update_task_eq, Hnone.
    rewrite decide_False; [done|]. by intros [].
  - intros st task old pid Hold Hpid Hnone. rewrite update_task_eq, Hold, Hpid.
    rewrite decide_False by (by intros []). simpl.
    by rewrite bool_decide_eq_true_2.
  - intros st r e st' Hr Hrun.
    destruct (reachable_consistent st Hr) as (Hk & _ & _ & _).
    destruct (read_only_handlers st) as (?&?&?&?&?&?&?).
    destruct r; cbn [handle] in Hrun; apply respond_raise in Hrun;
      eauto using create_task_raise, update_task_raise, delete_task_raise,
        update_task_status_raise, delete_project_raise, read_only_raise.
    + by rewrite create_project_eq in Hrun.
    + by rewrite create_user_eq in Hrun.
Qed.

Lemma failed_request_changes_nothing_witness :
  (11%N ≠ Task.id demo_task2 ∧
   update_task 11%N demo_task2 demo_state
   = (Raise (HTTPException 400 "Task ID mismatch"), demo_state)) ∧
  (reachable demo_state ∧
   handle (DeleteProject 2%N) demo_state
   = (Raise (HTTPException 404 "Project not found"),
      (handle (DeleteProject 2%N) demo_state).2) ∧
   (handle (DeleteProject 2%N) demo_state).2 = demo_state).
Proof.
  destruct failed_request_changes_nothing as (Hmis & _ & _ & Hany).
  split.
  - split; [done|]. by apply Hmis.
  - split_and!; [apply reachable_demo_state|reflexivity|].
    apply (Hany demo_state (DeleteProject 2%N)
             (HTTPException 404 "Project not found") _ reachable_demo_state).
    reflexivity.
Defined.

(** C6. For a task stored in a reachable state, [update_task_status]
    returns normally and changes only the status of that task: the record
    now stored has the given status and the identifier, title, description
    and project of the record before; every other task, every project and
    every user is as before. *)
Theorem update_task_status_changes_status_only st task_id task status :
  reachable st →
  task_repo st !! task_id = Some task →
  ∃ task' st',
    update_task_status task_id status st = (Return task', st') ∧
    task_repo st' !! task_id = Some task' ∧
    Task.status task' = status ∧
    Task.id task' = Task.id task ∧
    Task.title task' = Task.title task ∧
    Task.description task' = Task.description task ∧
    Task.project_id task' = Task.project_id task ∧
    (∀ k, k ≠ task_id → task_repo st' !! k = task_repo st !! k) ∧
    project_repo st' = project_repo st ∧
    user_repo st' = user_repo st.
Proof.
  intros Hr Hstored. destruct (reachable_consistent st Hr) as (Hk & _ & _ & _).
  eexists _, _. split_and!.
  - by rewrite (update_task_status_consistent_eq _ _ _ Hk), Hstored.
  - project_state. apply lookup_insert_eq.
  - done.
  - done.
  - done.
  - done.
  - done.
  - intros k Hne. project_state. by rewrite lookup_insert_ne.
  - done.
  - done.
Qed.

Lemma update_task_status_changes_status_only_witness :
  reachable demo_state ∧
  task_repo demo_state !! 12%N = Some demo_task2 ∧
  ∃ st',
    update_task_status 12%N DONE demo_state
    = (Return (Task.mk 12 "Build" (Some "static pages") DONE (Some 1%N)), st') ∧
    task_repo st' !! 11%N = Some demo_task1.
Proof.
  split; [apply reachable_demo_state|]. split; [reflexivity|].
  destruct (update_task_status_changes_status_only demo_state 12%N demo_task2
              DONE reachable_demo_state eq_refl)
    as (task' & st' & Hrun & _ & Hs & Hi & Ht & Hd & Hp & Hother & _).
  exists st'. split.
  - rewrite Hrun. f_equal. f_equal. destruct task'. simpl in *. by subst.
  - by rewrite Hother.
Defined.

(** ** Titles *)

(** C7, as stated, fails: a task whose title is the empty string is accepted
    by [create_task] and is then stored, in a reachable state. *)
Lemma empty_title_is_accepted :
  Task.title untitled_task = "" ∧
  create_task untitled_task initial_state
  = (Return untitled_task, run [CreateTask untitled_task] initial_state) ∧
  reachable (run [CreateTask untitled_task] initial_state) ∧
  task_repo (run [CreateTask untitled_task] initial_state) !! 7%N
  = Some untitled_task ∧
  ¬ (∀ st, reachable st →
       ∀ k task, task_repo st !! k = Some task → Task.title task ≠ "").
Proof.
  assert (reachable (run [CreateTask untitled_task] initial_state)) as Hr.
  { apply reachable_run. constructor. }
  split_and!; [reflexivity|reflexivity|done|reflexivity|].
  intros Hall. by apply (Hall _ Hr 7%N untitled_task).
Qed.

(** C7, amended.  The title of a task is required, and it is any string:
    constructing a task fails exactly when no title is given, and the title
    given is the title of the task, empty or not.  [create_task] and
    [update_task] do not look at the title: a task is accepted, and stored as
    it is, as soon as its project reference resolves (and, for an update, its
    identifier is stored), so a task with an empty title is accepted by both
    and reachable states do hold tasks with an empty title. *)
Theorem title_is_required_and_unconstrained :
  (∀ uuid4 f, Task.new uuid4 f = None ↔ Task.f_title f = None) ∧
  (∀ uuid4 f task,
     Task.new uuid4 f = Some task → Task.f_title f = Some (Task.title task)) ∧
  (∀ st task,
     reference_resolves st task →
     ∃ st', create_task task st = (Return task, st') ∧
            task_repo st' !! Task.id task = Some task) ∧
  (∀ st task old,
     task_repo st !! Task.id task = Some old →
     reference_resolves st task →
     ∃ st', update_task (Task.id task) task st = (Return task, st') ∧
            task_repo st' !! Task.id task = Some task) ∧
  (∃ st k task,
     reachable st ∧ task_repo st !! k = Some task ∧ Task.title task = "").
Proof.
  split_and!.
  - intros uuid4 f. unfold Task.new. by destruct (Task.f_title f).
  - intros uuid4 f task. unfold Task.new.
    destruct (Task.f_title f); [|done]. by intros [= <-].
  - intros st task Hres%reference_resolves_unresolved. eexists. split.
    + by rewrite create_task_eq, Hres.
    + project_state. apply lookup_insert_eq.
  - intros st task old Hold Hres%reference_resolves_unresolved. eexists. split.
    + rewrite update_task_eq, Hold, Hres. rewrite decide_False; [done|].
      by intros [].
    + project_state. apply lookup_insert_eq.
  - exists (run [CreateTask untitled_task] initial_state), 7%N, untitled_task.
    split_and!; [|reflexivity|reflexivity]. apply reachable_run. constructor.
Qed.

Lemma title_is_required_and_unconstrained_witness :
  reference_resolves initial_state untitled_task ∧
  (∃ st', create_task untitled_task initial_state = (Return untitled_task, st') ∧
          task_repo st' !! 7%N = Some untitled_task) ∧
  Task.new 7%N (Task.mk_fields None (Some "") None None None)
  = Some untitled_task ∧
  Task.new 7%N (Task.mk_fields (Some 7%N) None None (Some DONE) None) = None.
Proof.
  destruct title_is_required_and_unconstrained as (Hreq & _ & Hcreate & _).
  assert (reference_resolves initial_state untitled_task) as Hres.
  { intros pid Hpid. discriminate Hpid. }
  split_and!; [done| |reflexivity|].
  - exact (Hcreate initial_state untitled_task Hres).
  - by apply Hreq.
Defined.

(** C9. Records are filed under their own identifier.  This holds of an
    empty dictionary and each of [create], [update] and [delete] of each of
    the three repositories keeps it; and in every reachable state every
    entry [(k, r)] of each of the three repositories has [k] equal to the
    identifier of [r]. *)
Theorem keys_are_identifiers :
  (keys_consistent Task.id ∅ ∧
   ∀ task key,
     preserves_keys Task.id (TaskRepository.create task) ∧
     preserves_keys Task.id (TaskRepository.update task) ∧
     preserves_keys Task.id (TaskRepository.delete key)) ∧
  (keys_consistent Project.id ∅ ∧
   ∀ project key,
     preserves_keys Project.id (ProjectRepository.create project) ∧
     preserves_keys Project.id (ProjectRepository.update project) ∧
     preserves_keys Project.id (ProjectRepository.delete key)) ∧
  (keys_consistent User.id ∅ ∧
   ∀ user key,
     preserves_keys User.id (UserRepository.create user) ∧
     preserves_keys User.id (UserRepository.update user) ∧
     preserves_keys User.id (UserRepository.delete key)) ∧
  (∀ st, reachable st →
     (∀ k task, task_repo st !! k = Some task → Task.id task = k) ∧
     (∀ k project,
        project_repo st !! k = Some project → Project.id project = k) ∧
     (∀ k user, user_repo st !! k = Some user → User.id user = k)).
Proof.
  assert (∀ A (id : A → UUID) msg x key,
    preserves_keys id (Repository.create id x) ∧
    preserves_keys id (Repository.update id msg x) ∧
    preserves_keys id (Repository.delete (A := A) msg key)) as Hrepo.
  { intros A id msg x key. split_and!; intros d Hd.
    - by apply keys_consistent_insert.
    - unfold Repository.update. destruct (d !! id x); [|done].
      by apply keys_consistent_insert.
    - unfold Repository.delete. destruct (d !! key); [|done].
      by apply keys_consistent_delete. }
  split_and!; try apply keys_consistent_empty; try (intros; apply Hrepo).
  intros st Hr. by destruct (reachable_consistent st Hr) as (? & ? & ? & _).
Qed.

Lemma keys_are_identifiers_witness :
  reachable demo_state ∧
  task_repo demo_state !! 12%N = Some demo_task2 ∧
  Task.id demo_task2 = 12%N.
Proof.
  destruct keys_are_identifiers as (_ & _ & _ & Hreach).
  destruct (Hreach demo_state reachable_demo_state) as (Htask & _ & _).
  split_and!; [apply reachable_demo_state|reflexivity|].
  by apply (Htask 12%N demo_task2).
Defined.

(** * Further properties of the repositories and handlers *)

Lemma generic_delete_removes {A} (not_found : string) :
  delete_removes (A := A) not_found Repository.get_by_id Repository.get_all
    (Repository.delete not_found).
Proof.
  intros key d. unfold Repository.delete, Repository.get_by_id,
    Repository.get_all. split.
  - by intros ->.
  - intros x Hx. rewrite Hx. eexists _, _, _. split_and!; try reflexivity.
    + by rewrite lookup_delete_eq.
    + intros k Hne. by rewrite lookup_delete_ne.
    + rewrite !length_fmap, !length_map_to_list.
      rewrite map_size_delete, Hx. destruct (size d) eqn:Hsz; [|done].
      apply map_size_empty_inv in Hsz. subst d. by rewrite lookup_empty in Hx.
    + by rewrite lookup_delete_eq.
Qed.

(** X1. In each of the three repositories, [delete] of a key that is not
    stored raises the repository's [ValueError] and changes nothing; [delete]
    of a stored key removes that entry and no other, [get_by_id] then returns
    [None], [get_all] is one record shorter, and deleting the key again
    raises. *)
Theorem repository_delete_removes :
  delete_removes "Task not found" TaskRepository.get_by_id
    TaskRepository.get_all TaskRepository.delete ∧
  delete_removes "Project not found" ProjectRepository.get_by_id
    ProjectRepository.get_all ProjectRepository.delete ∧
  delete_removes "User not found" UserRepository.get_by_id
    UserRepository.get_all UserRepository.delete.
Proof. split_and!; apply generic_delete_removes. Qed.

Lemma repository_delete_removes_witness :
  demo_dict !! 12%N = None ∧
  TaskRepository.delete 12%N demo_dict
    = (Raise (ValueError "Task not found"), demo_dict) ∧
  demo_dict !! 11%N = Some demo_task1 ∧
  ∃ d', TaskRepository.delete 11%N demo_dict = (Return tt, d') ∧
        TaskRepository.get_by_id 11%N d' = (Return None, d').
Proof.
  destruct repository_delete_removes as (Htask & _ & _).
  destruct (Htask 12%N demo_dict) as [Hmiss _].
  destruct (Htask 11%N demo_dict) as [_ Hhit].
  destruct (Hhit demo_task1 eq_refl) as (d' & b & a & Hdel & Hget & _).
  split_and!; [reflexivity|by apply Hmiss|reflexivity|eauto].
Defined.

Lemma generic_create_inserts {A} (id : A → UUID) :
  create_inserts id Repository.get_by_id Repository.get_all
    (Repository.create id).
Proof.
  intros x d. eexists _, _, _.
  unfold Repository.create, Repository.get_by_id, Repository.get_all.
  split_and!; try reflexivity.
  - by rewrite lookup_insert_eq.
  - intros k Hne. by rewrite lookup_insert_ne.
  - intros Hfresh. split.
    + rewrite !length_fmap, !length_map_to_list.
      by apply map_size_insert_None.
    + intros y [k Hk]%elem_of_values. apply elem_of_values. exists k.
      rewrite lookup_insert_ne; [done|]. congruence.
Qed.

(** X2. In each of the three repositories, [create] never raises and the
    record is what [get_by_id] then returns under its identifier; the entries
    under other keys are untouched, and when the identifier is new [get_all]
    keeps all the records it had and gains exactly one. *)
Theorem repository_create_inserts :
  create_inserts Task.id TaskRepository.get_by_id
    TaskRepository.get_all TaskRepository.create ∧
  create_inserts Project.id ProjectRepository.get_by_id
    ProjectRepository.get_all ProjectRepository.create ∧
  create_inserts User.id UserRepository.get_by_id
    UserRepository.get_all UserRepository.create.
Proof. split_and!; apply generic_create_inserts. Qed.

Lemma repository_create_inserts_witness :
  demo_dict !! Task.id demo_task2 = None ∧
  ∃ d' after,
    TaskRepository.create demo_task2 demo_dict = (Return demo_task2, d') ∧
    TaskRepository.get_by_id 12%N d' = (Return (Some demo_task2), d') ∧
    TaskRepository.get_all d' = (Return after, d') ∧
    length after = 2 ∧ demo_task1 ∈ after.
Proof.
  split; [reflexivity|].
  destruct repository_create_inserts as (Htask & _ & _).
  destruct (Htask demo_task2 demo_dict)
    as (d' & before & after & Hc & Hg & _ & Hb & Ha & Hfresh).
  destruct (Hfresh eq_refl) as [Hlen Hkeep].
  exists d', after. split_and!; [done|done|done| |].
  - rewrite Hlen. injection Hb as <-. reflexivity.
  - apply Hkeep. injection Hb as <-. vm_compute. left.
Defined.

(** X3. [get_by_project] changes nothing and returns exactly the stored
    tasks whose [project_id] is the given identifier: a sub-list of what
    [get_all] returns, containing no task without a project; when records are
    filed under their identifiers, the returned tasks have pairwise distinct
    identifiers. *)
Theorem get_by_project_exact (project_id : UUID) (d : gmap UUID Task.t) :
  ∃ tasks all,
    TaskRepository.get_by_project project_id d = (Return tasks, d) ∧
    TaskRepository.get_all d = (Return all, d) ∧
    tasks `sublist_of` all ∧
    (∀ task, task ∈ tasks ↔
       Task.project_id task = Some project_id ∧ ∃ k, d !! k = Some task) ∧
    (∀ task, task ∈ tasks → Task.project_id task ≠ None) ∧
    (keys_consistent Task.id d → NoDup (Task.id <$> tasks)).
Proof.
  eexists _, _. split_and!; try reflexivity.
  - apply sublist_filter.
  - apply elem_of_project_tasks.
  - intros task [Hp _]%elem_of_project_tasks. congruence.
  - apply project_tasks_NoDup.
Qed.

Lemma get_by_project_exact_witness :
  keys_consistent Task.id demo_dict ∧
  ∃ tasks, TaskRepository.get_by_project 1%N demo_dict = (Return tasks, demo_dict) ∧
           NoDup (Task.id <$> tasks) ∧ demo_task1 ∈ tasks.
Proof.
  assert (keys_consistent Task.id demo_dict) as Hk.
  { intros k x. unfold demo_dict. rewrite lookup_singleton.
    case_decide; [|done]. by intros [= <-]. }
  split; [exact Hk|].
  destruct (get_by_project_exact 1%N demo_dict)
    as (tasks & all & Hrun & _ & _ & Hin & _ & Hnd).
  exists tasks. split_and!; [done|by apply Hnd|].
  apply Hin. split; [reflexivity|]. by exists 11%N.
Defined.

(** X4. [get_project_tasks] raises 404 "Project not found" for a project
    that is not stored and otherwise returns the list of [get_by_project],
    changing nothing in either case.  In a reachable state every stored task
    that names a project is in the list returned for that project. *)
Theorem get_project_tasks_lists_members :
  (∀ st pid,
     project_repo st !! pid = None →
     get_project_tasks pid st
     = (Raise (HTTPException HTTP_404_NOT_FOUND "Project not found"), st)) ∧
  (∀ st pid project,
     project_repo st !! pid = Some project →
     ∃ tasks,
       get_project_tasks pid st = (Return tasks, st) ∧
       on_task_repo (TaskRepository.get_by_project pid) st = (Return tasks, st)) ∧
  (∀ st k task pid,
     reachable st →
     task_repo st !! k = Some task →
     Task.project_id task = Some pid →
     ∃ tasks, get_project_tasks pid st = (Return tasks, st) ∧ task ∈ tasks).
Proof.
  assert (∀ st pid project, project_repo st !! pid = Some project →
            get_project_tasks pid st
            = (Return (project_tasks pid (task_repo st)), st)) as Hok.
  { intros st pid project Hp. unfold get_project_tasks.
    pose proof (validate_project_exists_eq pid st) as Hv. rewrite Hp in Hv.
    rewrite (bind_Return _ _ _ _ _ Hv). unfold on_task_repo.
    by rewrite get_by_project_eq, set_task_repo_id. }
  split_and!.
  - intros st pid Hp. unfold get_project_tasks.
    pose proof (validate_project_exists_eq pid st) as Hv. rewrite Hp in Hv.
    by rewrite (bind_Raise _ _ _ _ _ Hv).
  - intros st pid project Hp. eexists. split; [by eapply Hok|].
    unfold on_task_repo. by rewrite get_by_project_eq, set_task_repo_id.
  - intros st k task pid Hr Hk Hpid.
    destruct (reachable_consistent st Hr) as (_ & _ & _ & Hno).
    destruct (Hno _ _ _ Hk Hpid) as [project Hp].
    eexists. split; [by eapply Hok|]. apply elem_of_project_tasks. eauto.
Qed.

Lemma get_project_tasks_lists_members_witness :
  project_repo demo_state !! 2%N = None ∧
  get_project_tasks 2%N demo_state
  = (Raise (HTTPException 404 "Project not found"), demo_state) ∧
  reachable demo_state ∧
  task_repo demo_state !! 12%N = Some demo_task2 ∧
  Task.project_id demo_task2 = Some 1%N ∧
  ∃ tasks, get_project_tasks 1%N demo_state = (Return tasks, demo_state) ∧
           demo_task2 ∈ tasks.
Proof.
  destruct get_project_tasks_lists_members as (Hmiss & _ & Hmem).
  split_and!; [reflexivity|by apply Hmiss|apply reachable_demo_state|
               reflexivity|reflexivity|].
  by apply (Hmem demo_state 12%N demo_task2 1%N reachable_demo_state).
Defined.

(** X5. [delete_task] of an identifier that is not stored raises 404 "Task
    not found" and changes nothing.  Of a stored identifier it returns,
    never reaching the [ValueError] of the repository; afterwards that task
    is gone, every other task, every project and every user is as before,
    and both [get_task] and a second [delete_task] of the identifier raise
    404. *)
Theorem delete_task_removes_one st task_id :
  (task_repo st !! task_id = None →
     delete_task task_id st
     = (Raise (HTTPException HTTP_404_NOT_FOUND "Task not found"), st)) ∧
  (∀ task, task_repo st !! task_id = Some task →
     ∃ st',
       delete_task task_id st = (Return tt, st') ∧
       task_repo st' !! task_id = None ∧
       (∀ k, k ≠ task_id → task_repo st' !! k = task_repo st !! k) ∧
       project_repo st' = project_repo st ∧
       user_repo st' = user_repo st ∧
       get_task task_id st'
       = (Raise (HTTPException HTTP_404_NOT_FOUND "Task not found"), st') ∧
       delete_task task_id st'
       = (Raise (HTTPException HTTP_404_NOT_FOUND "Task not found"), st')).
Proof.
  split.
  - intros Hnone. by rewrite delete_task_eq, Hnone.
  - intros task Hsome. eexists. split_and!.
    + by rewrite delete_task_eq, Hsome.
    + project_state. apply lookup_delete_eq.
    + intros k Hne. project_state. by rewrite lookup_delete_ne.
    + done.
    + done.
    + unfold get_task. rewrite validate_task_exists_eq. project_state.
      by rewrite lookup_delete_eq.
    + rewrite delete_task_eq. project_state. by rewrite lookup_delete_eq.
Qed.

Lemma delete_task_removes_one_witness :
  task_repo demo_state !! 99%N = None ∧
  delete_task 99%N demo_state
  = (Raise (HTTPException 404 "Task not found"), demo_state) ∧
  task_repo demo_state !! 13%N = Some demo_task3 ∧
  ∃ st', delete_task 13%N demo_state = (Return tt, st') ∧
         task_repo st' !! 13%N = None ∧
         task_repo st' !! 11%N = Some demo_task1.
Proof.
  destruct (delete_task_removes_one demo_state 99%N) as [Hmiss _].
  destruct (delete_task_removes_one demo_state 13%N) as [_ Hhit].
  destruct (Hhit demo_task3 eq_refl) as (st' & Hdel & Hgone & Hother & _).
  split_and!; [reflexivity|by apply Hmiss|reflexivity|].
  exists st'. split_and!; [done|done|]. by rewrite Hother.
Defined.

(** X6. The seven read requests (the three listings, the three look-ups by
    identifier and the tasks of a project) never change any repository, in
    any state, whether they return or raise; hence repeating one gives the
    same answer. *)
Theorem read_requests_change_nothing r st :
  is_read r = true →
  (handle r st).2 = st ∧
  handle r (handle r st).2 = handle r st.
Proof.
  intros Hread. destruct (read_only_handlers st) as (?&?&?&?&?&?&?).
  assert ((handle r st).2 = st) as Hsame.
  { destruct r; try discriminate Hread; cbn [handle];
      rewrite respond_state; auto. }
  split; [done|]. by rewrite Hsame.
Qed.

Lemma read_requests_change_nothing_witness :
  is_read (GetProjectTasks 1%N) = true ∧
  (handle (GetProjectTasks 1%N) demo_state).2 = demo_state ∧
  is_read (GetTask 99%N) = true ∧
  (handle (GetTask 99%N) demo_state).2 = demo_state.
Proof.
  split_and!; [reflexivity| |reflexivity|].
  - by apply (read_requests_change_nothing (GetProjectTasks 1%N) demo_state).
  - by apply (read_requests_change_nothing (GetTask 99%N) demo_state).
Defined.

(** X7. In a reachable state no request ends in a [ValueError] of a
    repository: whatever a handler raises is one of the five [HTTPException]s
    the handlers raise themselves, all of them with a 4xx status. *)
Theorem handlers_raise_client_errors_only st r e st' :
  reachable st →
  handle r st = (Raise e, st') →
  e ∈ handler_errors ∧ is_client_error e = true.
Proof.
  intros Hr Hrun. destruct (reachable_consistent st Hr) as (Hk & _ & _ & _).
  assert (e ∈ handler_errors) as Hin; last first.
  { split; [done|]. unfold handler_errors in Hin.
    repeat (apply elem_of_cons in Hin as [->|Hin]; [done|]).
    by apply elem_of_nil in Hin. }
  unfold handler_errors.
  destruct r; cbn [handle] in Hrun; apply respond_raise in Hrun.
  - rewrite create_task_eq in Hrun. destruct (unresolved st _); [|done].
    injection Hrun as <- _. set_solver.
  - by rewrite list_tasks_eq in Hrun.
  - unfold get_task in Hrun. rewrite validate_task_exists_eq in Hrun.
    destruct (task_repo st !! task_id); [done|].
    injection Hrun as <- _. set_solver.
  - rewrite update_task_eq in Hrun. case_decide.
    { injection Hrun as <- _. set_solver. }
    destruct (task_repo st !! task_id); last first.
    { injection Hrun as <- _. set_solver. }
    destruct (unresolved st _); [|done]. injection Hrun as <- _. set_solver.
  - rewrite delete_task_eq in Hrun. destruct (task_repo st !! task_id); [done|].
    injection Hrun as <- _. set_solver.
  - rewrite (update_task_status_consistent_eq _ _ _ Hk) in Hrun.
    destruct (task_repo st !! task_id); [done|].
    injection Hrun as <- _. set_solver.
  - by rewrite create_project_eq in Hrun.
  - done.
  - unfold get_project in Hrun. rewrite validate_project_exists_eq in Hrun.
    destruct (project_repo st !! project_id); [done|].
    injection Hrun as <- _. set_solver.
  - unfold get_project_tasks in Hrun.
    pose proof (validate_project_exists_eq project_id st) as Hv.
    destruct (project_repo st !! project_id).
    + by rewrite (bind_Return _ _ _ _ _ Hv) in Hrun.
    + rewrite (bind_Raise _ _ _ _ _ Hv) in Hrun.
      injection Hrun as <- _. set_solver.
  - rewrite (delete_project_eq _ _ Hk) in Hrun.
    destruct (project_repo st !! project_id); [done|].
    injection Hrun as <- _. set_solver.
  - by rewrite create_user_eq in Hrun.
  - done.
  - unfold get_user in Hrun. rewrite validate_user_exists_eq in Hrun.
    destruct (user_repo st !! user_id); [done|].
    injection Hrun as <- _. set_solver.
Qed.

Lemma handlers_raise_client_errors_only_witness :
  reachable demo_state ∧
  handle (UpdateTaskStatus 99%N DONE) demo_state
  = (Raise (HTTPException 404 "Task not found"), demo_state) ∧
  is_client_error (HTTPException 404 "Task not found") = true.
Proof.
  split_and!; [apply reachable_demo_state|reflexivity|].
  apply (handlers_raise_client_errors_only demo_state
           (UpdateTaskStatus 99%N DONE) _ demo_state reachable_demo_state).
  reflexivity.
Defined.

Lemma unresolved_false st task :
  unresolved st (Task.project_id task) = false ↔ reference_resolves st task.
Proof.
  split; [|apply reference_resolves_unresolved].
  intros Hu pid Hpid. rewrite Hpid in Hu. simpl in Hu.
  apply bool_decide_eq_false in Hu. by apply not_eq_None_Some.
Qed.

(** X8. [create_task] returns exactly when the task's project reference
    resolves (no project named, or a stored one).  What it returns is the
    task given, stored under its own identifier; every other task, every
    project and every user is as before. *)
Theorem create_task_accepts_iff st task :
  ((∃ st', create_task task st = (Return task, st')) ↔
   reference_resolves st task) ∧
  (∀ task' st',
     create_task task st = (Return task', st') →
     task' = task ∧
     task_repo st' !! Task.id task = Some task ∧
     (∀ k, k ≠ Task.id task → task_repo st' !! k = task_repo st !! k) ∧
     project_repo st' = project_repo st ∧
     user_repo st' = user_repo st).
Proof.
  rewrite create_task_eq, <-unresolved_false.
  destruct (unresolved st _); split.
  - split; [by intros [? ?]|done].
  - done.
  - split; [done|eauto].
  - intros task' st' [= <- <-]. split_and!; try done; project_state.
    + apply lookup_insert_eq.
    + intros k Hne. by rewrite lookup_insert_ne.
Qed.

Lemma create_task_accepts_iff_witness :
  create_task demo_task4 demo_state
  = (Return demo_task4, (create_task demo_task4 demo_state).2) ∧
  task_repo (create_task demo_task4 demo_state).2 !! 15%N = Some demo_task4 ∧
  reference_resolves demo_state demo_task4.
Proof.
  destruct (create_task_accepts_iff demo_state demo_task4) as [Hiff Hpost].
  split_and!; [reflexivity| |].
  - by apply (Hpost demo_task4 (create_task demo_task4 demo_state).2).
  - apply Hiff. by eexists.
Defined.

(** X9. [update_task] returns exactly when the identifier of the path is
    the identifier of the body, a task is stored under it, and the body's
    project reference resolves.  It then returns the body, which replaces
    the stored record under the same identifier; every other task, every
    project and every user is as before. *)
Theorem update_task_accepts_iff st task_id task :
  ((∃ st', update_task task_id task st = (Return task, st')) ↔
   task_id = Task.id task ∧
   is_Some (task_repo st !! task_id) ∧
   reference_resolves st task) ∧
  (∀ task' st',
     update_task task_id task st = (Return task', st') →
     task' = task ∧
     task_repo st' !! task_id = Some task ∧
     (∀ k, k ≠ task_id → task_repo st' !! k = task_repo st !! k) ∧
     project_repo st' = project_repo st ∧
     user_repo st' = user_repo st).
Proof.
  rewrite update_task_eq, <-unresolved_false.
  destruct (decide (task_id ≠ Task.id task)) as [Hne|Heq].
  { split; [|done]. split; [by intros [? ?]|]. by intros [? _]. }
  apply dec_stable in Heq. subst task_id.
  destruct (task_repo st !! Task.id task) as [old|].
  2:{ split; [|done]. split; [by intros [? ?]|]. by intros (_ & [? ?] & _). }
  destruct (unresolved st _).
  { split; [|done]. split; [by intros [? ?]|]. by intros (_ & _ & ?). }
  split.
  - split; [by eauto|eauto].
  - intros task' st' [= <- <-]. split_and!; try done; project_state.
    + apply lookup_insert_eq.
    + intros k Hne. by rewrite lookup_insert_ne.
Qed.

Lemma update_task_accepts_iff_witness :
  (11%N = Task.id demo_task1_revised ∧
   is_Some (task_repo demo_state !! 11%N) ∧
   reference_resolves demo_state demo_task1_revised) ∧
  ∃ st', update_task 11%N demo_task1_revised demo_state
         = (Return demo_task1_revised, st') ∧
         task_repo st' !! 11%N = Some demo_task1_revised ∧
         task_repo st' !! 12%N = Some demo_task2.
Proof.
  destruct (update_task_accepts_iff demo_state 11%N demo_task1_revised)
    as [Hiff Hpost].
  assert (11%N = Task.id demo_task1_revised ∧
          is_Some (task_repo demo_state !! 11%N) ∧
          reference_resolves demo_state demo_task1_revised) as Hpre.
  { split_and!; [reflexivity|by eexists|]. intros pid Hpid. discriminate Hpid. }
  split; [exact Hpre|].
  destruct (proj2 Hiff Hpre) as [st' Hrun]. exists st'.
  destruct (Hpost _ _ Hrun) as (_ & Hnew & Hother & _).
  split_and!; [done|done|]. by rewrite Hother.
Defined.

Lemma set_status_same task : Task.set_status (Task.status task) task = task.
Proof. by destruct task. Qed.

Lemma set_status_twice s1 s2 task :
  Task.set_status s2 (Task.set_status s1 task) = Task.set_status s2 task.
Proof. done. Qed.

(** X10. Status updates of a task stored in a reachable state compose: a
    second [update_task_status] of the same task overrides the first (same
    answer and same final state as the second alone), and setting the status
    the task already has returns the task and leaves the state as it is. *)
Theorem update_task_status_last_wins st task_id task s1 s2 :
  reachable st →
  task_repo st !! task_id = Some task →
  update_task_status task_id s2 (update_task_status task_id s1 st).2
  = update_task_status task_id s2 st ∧
  update_task_status task_id (Task.status task) st = (Return task, st).
Proof.
  intros Hr Hstored. destruct (reachable_consistent st Hr) as (Hk & _).
  split.
  - assert (keys_consistent Task.id
              (task_repo (update_task_status task_id s1 st).2)) as Hk1.
    { by apply consistent_update_task_status, reachable_consistent. }
    rewrite (update_task_status_consistent_eq _ _ _ Hk1).
    rewrite !(update_task_status_consistent_eq _ _ _ Hk), Hstored.
    project_state. rewrite lookup_insert_eq, insert_insert_eq.
    by destruct st.
  - rewrite (update_task_status_consistent_eq _ _ _ Hk), Hstored.
    rewrite set_status_same, insert_id by done. by rewrite set_task_repo_id.
Qed.

Lemma update_task_status_last_wins_witness :
  reachable demo_state ∧
  task_repo demo_state !! 11%N = Some demo_task1 ∧
  update_task_status 11%N DONE (update_task_status 11%N IN_PROGRESS demo_state).2
  = update_task_status 11%N DONE demo_state ∧
  update_task_status 11%N TODO demo_state = (Return demo_task1, demo_state).
Proof.
  split; [apply reachable_demo_state|]. split; [reflexivity|].
  apply (update_task_status_last_wins demo_state 11%N demo_task1 IN_PROGRESS
           DONE reachable_demo_state eq_refl).
Defined.

(** X11. Creating a task under an identifier that is not yet stored and
    then deleting it gives back the state before the creation, exactly. *)
Theorem create_then_delete_task_restores st task :
  task_repo st !! Task.id task = None →
  reference_resolves st task →
  ∃ st1,
    create_task task st = (Return task, st1) ∧
    delete_task (Task.id task) st1 = (Return tt, st).
Proof.
  intros Hfresh Hres%reference_resolves_unresolved. eexists. split.
  - by rewrite create_task_eq, Hres.
  - rewrite delete_task_eq. project_state. rewrite lookup_insert_eq.
    rewrite delete_insert_id by done. by destruct st.
Qed.

Lemma create_then_delete_task_restores_witness :
  task_repo demo_state !! Task.id demo_task4 = None ∧
  reference_resolves demo_state demo_task4 ∧
  delete_task 15%N (create_task demo_task4 demo_state).2
  = (Return tt, demo_state).
Proof.
  assert (reference_resolves demo_state demo_task4) as Hres.
  { intros pid [= <-]. by eexists. }
  split_and!; [reflexivity|done|].
  destruct (create_then_delete_task_restores demo_state demo_task4 eq_refl Hres)
    as (st1 & Hc & Hd).
  by rewrite Hc.
Defined.

Lemma listing_of_consistent {A} (id : A → UUID) (d : gmap UUID A) :
  keys_consistent id d →
  NoDup (id <$> (map_to_list d).*2) ∧
  ∀ x, x ∈ (map_to_list d).*2 ↔ d !! id x = Some x.
Proof.
  intros Hk. split.
  - rewrite (ids_of_values _ _ Hk). apply NoDup_fst_map_to_list.
  - intros x. rewrite elem_of_values. split; [|eauto].
    intros [k Hx]. by rewrite (Hk _ _ Hx).
Qed.

Lemma lookup_outcome {A} (o : option A) (x : A) (e : exn) (st : State) :
  match o with
  | None => (Raise e, st)
  | Some y => (Return y, st)
  end = (Return x, st) ↔ o = Some x.
Proof. destruct o; split; intros H; by simplify_eq. Qed.

(** X12. In a reachable state each listing shows every stored record once:
    the records returned by [list_tasks], [list_projects] and [list_users]
    have pairwise distinct identifiers, and a record is in the listing
    exactly when the look-up by its identifier ([get_task], [get_project],
    [get_user]) returns it. *)
Theorem listings_agree_with_lookups st :
  reachable st →
  (∃ tasks,
     list_tasks st = (Return tasks, st) ∧
     NoDup (Task.id <$> tasks) ∧
     ∀ task, task ∈ tasks ↔ get_task (Task.id task) st = (Return task, st)) ∧
  (∃ projects,
     list_projects st = (Return projects, st) ∧
     NoDup (Project.id <$> projects) ∧
     ∀ project, project ∈ projects ↔
       get_project (Project.id project) st = (Return project, st)) ∧
  (∃ users,
     list_users st = (Return users, st) ∧
     NoDup (User.id <$> users) ∧
     ∀ user, user ∈ users ↔ get_user (User.id user) st = (Return user, st)).
Proof.
  intros Hr. destruct (reachable_consistent st Hr) as (Ht & Hp & Hu & _).
  destruct (listing_of_consistent _ _ Ht) as [Hnt Hmt].
  destruct (listing_of_consistent _ _ Hp) as [Hnp Hmp].
  destruct (listing_of_consistent _ _ Hu) as [Hnu Hmu].
  split_and!; eexists; (split_and!; [by unfold_handlers|done|]).
  - intros task. rewrite Hmt. unfold get_task.
    rewrite validate_task_exists_eq. symmetry. apply lookup_outcome.
  - intros project. rewrite Hmp. unfold get_project.
    rewrite validate_project_exists_eq. symmetry. apply lookup_outcome.
  - intros user. rewrite Hmu. unfold get_user.
    rewrite validate_user_exists_eq. symmetry. apply lookup_outcome.
Qed.

Lemma listings_agree_with_lookups_witness :
  reachable demo_state ∧
  ∃ tasks, list_tasks demo_state = (Return tasks, demo_state) ∧
           NoDup (Task.id <$> tasks) ∧ demo_task3 ∈ tasks.
Proof.
  split; [apply reachable_demo_state|].
  destruct (listings_agree_with_lookups demo_state reachable_demo_state)
    as ((tasks & Hl & Hnd & Hmem) & _ & _).
  exists tasks. split_and!; [done|done|]. by apply Hmem.
Defined.

(** ** What a request can and cannot touch *)

Lemma for_each_delete_one_frame l st :
  project_repo (for_each l delete_one st).2 = project_repo st ∧
  user_repo (for_each l delete_one st).2 = user_repo st.
Proof.
  revert st. induction l as [|t l IH]; intros st; [done|].
  cbn [for_each]. unfold mbind, M_bind, bind. rewrite delete_one_eq.
  destruct (task_repo st !! Task.id t); [|done].
  destruct (IH (set_task_repo (delete (Task.id t) (task_repo st)) st))
    as [-> ->]. done.
Qed.

(** In any state, whether or not the loop raises. *)
Lemma delete_project_frame project_id st :
  user_repo (delete_project project_id st).2 = user_repo st ∧
  (project_repo (delete_project project_id st).2 = project_repo st ∨
   project_repo (delete_project project_id st).2
   = delete project_id (project_repo st)).
Proof.
  unfold delete_project.
  pose proof (validate_project_exists_eq project_id st) as Hv.
  destruct (project_repo st !! project_id) as [project|] eqn:E; last first.
  { rewrite (bind_Raise _ _ _ _ _ Hv). auto. }
  rewrite (bind_Return _ _ _ _ _ Hv).
  erewrite bind_Return; last first.
  { unfold on_task_repo. rewrite get_by_project_eq, set_task_repo_id.
    reflexivity. }
  destruct (for_each_delete_one_frame (project_tasks project_id (task_repo st)) st)
    as [Hp Hu].
  unfold mbind, M_bind, bind.
  destruct (for_each _ delete_one st) as [[[]|e] st1]; project_state; [|auto].
  unfold on_project_repo, ProjectRepository.delete, Repository.delete.
  rewrite Hp, E. project_state. auto.
Qed.

Lemma task_handlers_frame st :
  (∀ task, project_repo (create_task task st).2 = project_repo st ∧
           user_repo (create_task task st).2 = user_repo st) ∧
  (∀ k task, project_repo (update_task k task st).2 = project_repo st ∧
             user_repo (update_task k task st).2 = user_repo st) ∧
  (∀ k, project_repo (delete_task k st).2 = project_repo st ∧
        user_repo (delete_task k st).2 = user_repo st) ∧
  (∀ k s, project_repo (update_task_status k s st).2 = project_repo st ∧
          user_repo (update_task_status k s st).2 = user_repo st).
Proof.
  split_and!.
  - intros task. rewrite create_task_eq. by destruct (unresolved st _).
  - intros k task. rewrite update_task_eq. case_decide; [done|].
    destruct (task_repo st !! k); [|done]. by destruct (unresolved st _).
  - intros k. rewrite delete_task_eq. by destruct (task_repo st !! k).
  - intros k s. rewrite update_task_status_eq.
    destruct (task_repo st !! k) as [task|]; [|done]. cbn zeta.
    by destruct (_ !! Task.id task).
Qed.

(** X13. The user repository is changed by [create_user] only, which files
    the user under its identifier: every other request, in any state and
    whether it returns or raises, leaves the user repository as it is.  No
    handler deletes a user, so an identifier that is stored stays stored
    after any sequence of requests. *)
Theorem users_change_by_create_user_only :
  (∀ r st, (∀ user, r ≠ CreateUser user) →
     user_repo (handle r st).2 = user_repo st) ∧
  (∀ user st,
     handle (CreateUser user) st
     = (Return (OneUser user),
        set_user_repo (<[User.id user := user]> (user_repo st)) st)) ∧
  (∀ rs st k,
     is_Some (user_repo st !! k) → is_Some (user_repo (run rs st) !! k)).
Proof.
  assert (∀ r st, (∀ user, r ≠ CreateUser user) →
            user_repo (handle r st).2 = user_repo st) as Hframe.
  { intros r st Hnot.
    destruct (read_only_handlers st) as (?&?&?&?&?&?&?).
    destruct (task_handlers_frame st) as (Hc & Hu & Hd & Hs).
    destruct r; cbn [handle]; rewrite respond_state; try congruence.
    - apply Hc.
    - apply Hu.
    - apply Hd.
    - apply Hs.
    - done.
    - apply delete_project_frame.
    - by destruct (Hnot user). }
  split_and!; [done|done|].
  intros rs. unfold run. induction rs as [|r rs IH]; intros st k Hk; [done|].
  cbn [foldl]. apply IH.
  assert ((∃ user, r = CreateUser user) ∨ ∀ user, r ≠ CreateUser user)
    as [[user ->]|Hnot] by (destruct r; eauto).
  - cbn [handle]. rewrite respond_state, create_user_eq. project_state.
    rewrite lookup_insert. by case_decide.
  - by rewrite Hframe.
Qed.

Lemma users_change_by_create_user_only_witness :
  is_Some (user_repo (run [CreateUser demo_user] demo_state) !! 21%N) ∧
  is_Some (user_repo (run [DeleteProject 1%N; CreateUser (User.mk 22 "bob" "b")]
                        (run [CreateUser demo_user] demo_state)) !! 21%N).
Proof.
  destruct users_change_by_create_user_only as (_ & _ & Hkeep).
  assert (is_Some (user_repo (run [CreateUser demo_user] demo_state) !! 21%N))
    as Hin by (by eexists).
  split; [done|]. by apply Hkeep.
Defined.

(** X14. The project repository is changed by [create_project] and
    [delete_project] only, and only at the identifier concerned: every other
    request leaves it as it is, in any state, and creating or deleting one
    project leaves every other project's entry untouched. *)
Theorem projects_change_by_create_and_delete_only :
  (∀ r st,
     (∀ project, r ≠ CreateProject project) →
     (∀ pid, r ≠ DeleteProject pid) →
     project_repo (handle r st).2 = project_repo st) ∧
  (∀ pid st k, k ≠ pid →
     project_repo (handle (DeleteProject pid) st).2 !! k = project_repo st !! k) ∧
  (∀ project st k, k ≠ Project.id project →
     project_repo (handle (CreateProject project) st).2 !! k
     = project_repo st !! k).
Proof.
  split_and!.
  - intros r st Hnc Hnd.
    destruct (read_only_handlers st) as (?&?&?&?&?&?&?).
    destruct (task_handlers_frame st) as (Hc & Hu & Hd & Hs).
    destruct r; cbn [handle]; rewrite respond_state; try congruence.
    + apply Hc.
    + apply Hu.
    + apply Hd.
    + apply Hs.
    + by destruct (Hnc project).
    + by destruct (Hnd project_id).
    + done.
  - intros pid st k Hne. cbn [handle]. rewrite respond_state.
    destruct (delete_project_frame pid st) as [_ [->| ->]]; [done|].
    by rewrite lookup_delete_ne.
  - intros project st k Hne. cbn [handle].
    rewrite respond_state, create_project_eq. project_state.
    by rewrite lookup_insert_ne.
Qed.

Lemma projects_change_by_create_and_delete_only_witness :
  (2%N ≠ 1%N ∧
   project_repo (handle (DeleteProject 1%N)
                   (run [CreateProject demo_project2] demo_state)).2 !! 2%N
   = Some demo_project2) ∧
  project_repo (handle (DeleteTask 11%N) demo_state).2 = project_repo demo_state.
Proof.
  destruct projects_change_by_create_and_delete_only as (Hother & Hdel & _).
  split_and!; [done| |].
  - by rewrite Hdel.
  - by apply Hother.
Defined.

(** X15. In a reachable state a stored task is left exactly as it is by
    every request other than a create, update, status update or delete
    addressed to its identifier, or the deletion of the project it names;
    and an identifier that is not stored becomes stored only through
    [create_task] of a task with that identifier. *)
Theorem tasks_change_by_addressed_requests_only st r k :
  reachable st →
  (∀ task,
     task_repo st !! k = Some task →
     ¬ may_touch_task k (Task.project_id task) r →
     task_repo (handle r st).2 !! k = Some task) ∧
  (task_repo st !! k = None →
   (∀ task, r = CreateTask task → Task.id task ≠ k) →
   task_repo (handle r st).2 !! k = None).
Proof.
  intros Hr. destruct (reachable_consistent st Hr) as (Hk & _).
  destruct (read_only_handlers st) as (R1 & R2 & R3 & R4 & R5 & R6 & R7).
  split.
  - intros task Hstored Hnot.
    destruct r; cbn [handle may_touch_task] in *; rewrite respond_state;
      try (by rewrite ?R1, ?R2, ?R3, ?R4, ?R5, ?R6, ?R7).
    + rewrite create_task_eq. destruct (unresolved st _); [done|].
      project_state. by rewrite lookup_insert_ne.
    + rewrite update_task_eq. case_decide as Hid; [done|].
      destruct (task_repo st !! task_id); [|done].
      destruct (unresolved st _); [done|]. project_state.
      rewrite lookup_insert_ne; [done|]. congruence.
    + rewrite delete_task_eq. destruct (task_repo st !! task_id); [|done].
      project_state. by rewrite lookup_delete_ne.
    + rewrite (update_task_status_consistent_eq _ _ _ Hk).
      destruct (task_repo st !! task_id); [|done].
      project_state. by rewrite lookup_insert_ne.
    + rewrite (delete_project_eq _ _ Hk).
      destruct (project_repo st !! project_id); [|done]. project_state.
      by apply map_lookup_filter_Some.
  - intros Hnone Hnot.
    destruct r; cbn [handle] in *; rewrite respond_state;
      try (by rewrite ?R1, ?R2, ?R3, ?R4, ?R5, ?R6, ?R7).
    + rewrite create_task_eq. destruct (unresolved st _); [done|].
      project_state. rewrite lookup_insert_ne; [done|]. by apply Hnot.
    + rewrite update_task_eq. case_decide as Hid; [done|]. subst task_id.
      destruct (task_repo st !! Task.id task) eqn:E; [|done].
      destruct (unresolved st _); [done|]. project_state.
      rewrite lookup_insert_ne; [done|]. congruence.
    + rewrite delete_task_eq. destruct (task_repo st !! task_id); [|done].
      project_state. rewrite lookup_delete. by case_decide.
    + rewrite (update_task_status_consistent_eq _ _ _ Hk).
      destruct (task_repo st !! task_id) eqn:E; [|done].
      project_state. rewrite lookup_insert_ne; [done|]. congruence.
    + rewrite (delete_project_eq _ _ Hk).
      destruct (project_repo st !! project_id); [|done]. project_state.
      apply map_lookup_filter_None. by left.
Qed.

Lemma tasks_change_by_addressed_requests_only_witness :
  reachable demo_state ∧
  task_repo demo_state !! 13%N = Some demo_task3 ∧
  ¬ may_touch_task 13%N (Task.project_id demo_task3) (DeleteProject 1%N) ∧
  task_repo (handle (DeleteProject 1%N) demo_state).2 !! 13%N = Some demo_task3.
Proof.
  assert (¬ may_touch_task 13%N (Task.project_id demo_task3) (DeleteProject 1%N))
    as Hnot by (intros H; discriminate H).
  split_and!; [apply reachable_demo_state|reflexivity|done|].
  destruct (tasks_change_by_addressed_requests_only demo_state
              (DeleteProject 1%N) 13%N reachable_demo_state) as [Hkeep _].
  by apply Hkeep.
Defined.

(** ** After a project is deleted *)

Lemma size_delete_each l (d : gmap UUID Task.t) :
  NoDup (Task.id <$> l) →
  (∀ task, task ∈ l → is_Some (d !! Task.id task)) →
  size d = length l + size (delete_each l d).
Proof.
  unfold delete_each. revert d. induction l as [|t l IH]; intros d Hnd Hin.
  - done.
  - rewrite fmap_cons in Hnd. apply NoDup_cons in Hnd as [Hnotin Hnd].
    assert (size d = S (size (delete (Task.id t) d))) as Hsize.
    { destruct (Hin t) as [x Hx]; [left|].
      rewrite map_size_delete, Hx. destruct (size d) eqn:Hsz; [|done].
      apply map_size_empty_inv in Hsz. subst d. by rewrite lookup_empty in Hx. }
    cbn [foldl length]. rewrite Hsize, (IH (delete (Task.id t) d)); [lia|done|].
    intros t' Ht'. rewrite lookup_delete_ne.
    + apply Hin. by right.
    + intros Heq. apply Hnotin. rewrite Heq. by apply list_elem_of_fmap_2.
Qed.

Lemma get_project_tasks_eq project_id st :
  get_project_tasks project_id st =
  match project_repo st !! project_id with
  | None => (Raise (HTTPException HTTP_404_NOT_FOUND "Project not found"), st)
  | Some _ => (Return (project_tasks project_id (task_repo st)), st)
  end.
Proof.
  unfold get_project_tasks.
  pose proof (validate_project_exists_eq project_id st) as Hv.
  destruct (project_repo st !! project_id).
  - rewrite (bind_Return _ _ _ _ _ Hv). unfold on_task_repo.
    by rewrite get_by_project_eq, set_task_repo_id.
  - by rewrite (bind_Raise _ _ _ _ _ Hv).
Qed.

Lemma delete_project_missing project_id st :
  project_repo st !! project_id = None →
  delete_project project_id st
  = (Raise (HTTPException HTTP_404_NOT_FOUND "Project not found"), st).
Proof.
  intros Hnone. unfold delete_project.
  pose proof (validate_project_exists_eq project_id st) as Hv.
  rewrite Hnone in Hv. by rewrite (bind_Raise _ _ _ _ _ Hv).
Qed.

(** X16. After [delete_project] of a project stored in a reachable state,
    the task listing has shrunk by exactly the number of tasks the project
    had, and the project's identifier behaves as one never created:
    [get_project], [get_project_tasks] and a second [delete_project] raise
    404 "Project not found", and [create_task] of a task naming it raises
    400 "Project not found", all four leaving the state as it is. *)
Theorem delete_project_aftermath st project_id project :
  reachable st →
  project_repo st !! project_id = Some project →
  ∃ st' before doomed after,
    delete_project project_id st = (Return tt, st') ∧
    list_tasks st = (Return before, st) ∧
    get_project_tasks project_id st = (Return doomed, st) ∧
    list_tasks st' = (Return after, st') ∧
    length before = length doomed + length after ∧
    get_project project_id st'
    = (Raise (HTTPException HTTP_404_NOT_FOUND "Project not found"), st') ∧
    get_project_tasks project_id st'
    = (Raise (HTTPException HTTP_404_NOT_FOUND "Project not found"), st') ∧
    delete_project project_id st'
    = (Raise (HTTPException HTTP_404_NOT_FOUND "Project not found"), st') ∧
    (∀ task,
       Task.project_id task = Some project_id →
       create_task task st'
       = (Raise (HTTPException HTTP_400_BAD_REQUEST "Project not found"), st')).
Proof.
  intros Hr Hp. destruct (reachable_consistent st Hr) as (Hk & _).
  eexists _, _, _, _. split_and!.
  - by rewrite (delete_project_eq _ _ Hk), Hp.
  - apply list_tasks_eq.
  - by rewrite get_project_tasks_eq, Hp.
  - apply list_tasks_eq.
  - project_state. rewrite !length_fmap, !length_map_to_list.
    rewrite <-(delete_each_project_tasks _ _ Hk). apply size_delete_each.
    + by apply project_tasks_NoDup.
    + intros t Ht. rewrite (project_tasks_stored _ _ _ Hk Ht). eauto.
  - unfold get_project. rewrite validate_project_exists_eq. project_state.
    by rewrite lookup_delete_eq.
  - rewrite get_project_tasks_eq. project_state. by rewrite lookup_delete_eq.
  - apply delete_project_missing. project_state. apply lookup_delete_eq.
  - intros task Hpid. rewrite create_task_eq, Hpid. simpl.
    rewrite bool_decide_eq_true_2; [done|]. apply lookup_delete_eq.
Qed.

Lemma delete_project_aftermath_witness :
  reachable demo_state ∧
  project_repo demo_state !! 1%N = Some demo_project ∧
  ∃ st' after,
    delete_project 1%N demo_state = (Return tt, st') ∧
    list_tasks st' = (Return after, st') ∧
    3 = 2 + length after ∧
    create_task demo_task4 st'
    = (Raise (HTTPException 400 "Project not found"), st').
Proof.
  split; [apply reachable_demo_state|]. split; [reflexivity|].
  destruct (delete_project_aftermath demo_state 1%N demo_project
              reachable_demo_state eq_refl)
    as (st' & before & doomed & after & Hdel & Hb & Hd & Ha & Hlen & _ & _ & _
        & Hcreate).
  exists st', after. split_and!; [done|done| |by apply Hcreate].
  injection Hb as <-. injection Hd as <-. exact Hlen.
Defined.

(** X17. [create_project] never raises and checks nothing: the project is
    what [get_project] then returns, no task and no user is touched, every
    project reference that resolved still resolves, and [create_task] of a
    task naming the new project is accepted. *)
Theorem create_project_then_attach st project :
  ∃ st',
    create_project project st = (Return project, st') ∧
    get_project (Project.id project) st' = (Return project, st') ∧
    task_repo st' = task_repo st ∧
    user_repo st' = user_repo st ∧
    (∀ task, reference_resolves st task → reference_resolves st' task) ∧
    (∀ task,
       Task.project_id task = Some (Project.id project) →
       ∃ st'', create_task task st' = (Return task, st'')).
Proof.
  eexists. split_and!; [apply create_project_eq| |done|done| |].
  - unfold get_project. rewrite validate_project_exists_eq. project_state.
    by rewrite lookup_insert_eq.
  - intros task Hres pid Hpid. project_state. rewrite lookup_insert.
    case_decide; [by eexists|]. by apply Hres.
  - intros task Hpid. eexists. rewrite create_task_eq, Hpid. simpl.
    rewrite bool_decide_eq_false_2; [done|]. project_state.
    by rewrite lookup_insert_eq.
Qed.

(** X18. [create_user] never raises: the user is what [get_user] then
    returns and [list_users] then contains, and no task or project is
    touched; [get_user] of an identifier that is not stored raises 404 "User
    not found" and changes nothing. *)
Theorem create_user_then_get st user :
  (∃ st' users,
     create_user user st = (Return user, st') ∧
     get_user (User.id user) st' = (Return user, st') ∧
     list_users st' = (Return users, st') ∧
     user ∈ users ∧
     task_repo st' = task_repo st ∧
     project_repo st' = project_repo st) ∧
  (∀ k, user_repo st !! k = None →
     get_user k st
     = (Raise (HTTPException HTTP_404_NOT_FOUND "User not found"), st)).
Proof.
  split.
  - eexists _, _. split_and!; [apply create_user_eq| | |  |done|done].
    + unfold get_user. rewrite validate_user_exists_eq. project_state.
      by rewrite lookup_insert_eq.
    + by unfold_handlers.
    + project_state. apply elem_of_values. exists (User.id user).
      apply lookup_insert_eq.
  - intros k Hnone. unfold get_user.
    by rewrite validate_user_exists_eq, Hnone.
Qed.

Lemma create_user_then_get_witness :
  user_repo demo_state !! 21%N = None ∧
  get_user 21%N demo_state
  = (Raise (HTTPException 404 "User not found"), demo_state) ∧
  get_user 21%N (create_user demo_user demo_state).2
  = (Return demo_user, (create_user demo_user demo_state).2).
Proof.
  destruct (create_user_then_get demo_state demo_user)
    as [(st' & users & Hc & Hg & _) Hmiss].
  split_and!; [reflexivity|by apply Hmiss|]. by rewrite Hc.
Defined.

(** X19. [update_task] can move a task to another project: after an
    accepted update whose body names a stored project [q], in a reachable
    state, the task is in the list [get_project_tasks] returns for [q], and
    [get_by_project] returns no task with that identifier for any other
    project. *)
Theorem update_task_moves_task st task q :
  reachable st →
  is_Some (task_repo st !! Task.id task) →
  Task.project_id task = Some q →
  is_Some (project_repo st !! q) →
  ∃ st',
    update_task (Task.id task) task st = (Return task, st') ∧
    (∃ tasks, get_project_tasks q st' = (Return tasks, st') ∧ task ∈ tasks) ∧
    (∀ p tasks other,
       on_task_repo (TaskRepository.get_by_project p) st' = (Return tasks, st') →
       other ∈ tasks →
       Task.id other = Task.id task →
       p = q ∧ other = task).
Proof.
  intros Hr [old Hold] Hq [project Hproject].
  destruct (reachable_consistent st Hr) as (Hk & _).
  eexists. split_and!.
  - rewrite update_task_eq, Hold, Hq. rewrite decide_False by (by intros []).
    simpl. rewrite bool_decide_eq_false_2; [done|]. by rewrite Hproject.
  - eexists. split.
    + rewrite get_project_tasks_eq. project_state. by rewrite Hproject.
    + project_state. apply elem_of_project_tasks. split; [done|].
      exists (Task.id task). apply lookup_insert_eq.
  - intros p tasks other Hrun Hin Hid. unfold on_task_repo in Hrun.
    rewrite get_by_project_eq in Hrun. injection Hrun as <-.
    project_state. apply elem_of_project_tasks in Hin as [Hp [k Hlk]].
    pose proof (keys_consistent_insert Task.id _ task Hk _ _ Hlk) as Hkey.
    rewrite <-Hkey, Hid, lookup_insert_eq in Hlk. injection Hlk as <-.
    split; [congruence|done].
Qed.

Lemma update_task_moves_task_witness :
  reachable demo_state ∧
  is_Some (task_repo demo_state !! Task.id demo_task3_moved) ∧
  Task.project_id demo_task3_moved = Some 1%N ∧
  is_Some (project_repo demo_state !! 1%N) ∧
  ∃ st' tasks,
    update_task 13%N demo_task3_moved demo_state = (Return demo_task3_moved, st') ∧
    get_project_tasks 1%N st' = (Return tasks, st') ∧
    demo_task3_moved ∈ tasks.
Proof.
  assert (is_Some (task_repo demo_state !! Task.id demo_task3_moved)) as H1
    by (by eexists).
  assert (is_Some (project_repo demo_state !! 1%N)) as H2 by (by eexists).
  split_and!; [apply reachable_demo_state|done|reflexivity|done|].
  destruct (update_task_moves_task demo_state demo_task3_moved 1%N
              reachable_demo_state H1 eq_refl H2)
    as (st' & Hupd & (tasks & Hget & Hin) & _).
  by exists st', tasks.
Defined.

Lemma create_project_then_attach_witness :
  reference_resolves demo_state demo_task1 ∧
  Task.project_id (Task.mk 31 "Dig" None TODO (Some 2%N))
  = Some (Project.id demo_project2) ∧
  ∃ st' st'',
    create_project demo_project2 demo_state = (Return demo_project2, st') ∧
    reference_resolves st' demo_task1 ∧
    create_task (Task.mk 31 "Dig" None TODO (Some 2%N)) st'
    = (Return (Task.mk 31 "Dig" None TODO (Some 2%N)), st'').
Proof.
  assert (reference_resolves demo_state demo_task1) as Hres.
  { intros pid [= <-]. by eexists. }
  split; [done|]. split; [reflexivity|].
  destruct (create_project_then_attach demo_state demo_project2)
    as (st' & Hc & _ & _ & _ & Hkeep & Hattach).
  destruct (Hattach (Task.mk 31 "Dig" None TODO (Some 2%N)) eq_refl)
    as [st'' Hcreate].
  exists st', st''. split_and!; [done|by apply Hkeep|done].
Defined.
